(** * Coltrane weblog models: a shallow embedding and its properties

    Two schema versions live in the repository:
    - [src/models.py]           (module [Models]):   manager helpers, tags
      property, [comments_open], [unique_together] constraints;
    - [src/coltrane/models.py]  (module [Coltrane]): [formatter], status
      constants, [get_next]/[get_previous], moderator registration.

    Tables are lists of rows in storage order; a queryset is evaluated by
    filtering and then sorting with the ordering declared in [Meta].
    Timestamps are integers (microseconds); text is [string]; nullable
    columns are [option]. *)

From stdpp Require Import gmap strings list sorting.

Local Open Scope Z_scope.

(** ** Python results *)

Inductive exn : Type :=
  | KeyError (key : Z)
  | IntegrityError
  | DoesNotExist
  | AttributeError
  | IOError
  | ValueError.

Inductive result (A : Type) : Type :=
  | Ok (a : A)
  | Raise (e : exn).
Arguments Ok {A} a.
Arguments Raise {A} e.

(** A computation over a store [S] that may raise.  The store is returned in
    both cases: what was done before an exception stays done. *)
Definition M (S A : Type) : Type := S → result A * S.

Definition ret {S A} (a : A) : M S A := λ s, (Ok a, s).
Definition bind {S A B} (m : M S A) (k : A → M S B) : M S B :=
  λ s, match m s with
       | (Ok a, s') => k a s'
       | (Raise e, s') => (Raise e, s')
       end.
Definition modify {S} (f : S → S) : M S unit := λ s, (Ok tt, f s).

(** [try: m  except: pass] *)
Definition try_except_pass {S A} (m : M S A) : M S unit :=
  λ s, match m s with
       | (Ok _, s') => (Ok tt, s')
       | (Raise _, s') => (Ok tt, s')
       end.

(** [if c: m] *)
Definition when {S} (c : bool) (m : M S unit) : M S unit :=
  if c then m else ret tt.

Global Instance M_ret {S} : MRet (M S) := λ A, ret.
Global Instance M_bind {S} : MBind (M S) := λ A B k m, bind m k.

(** ** Python truthiness *)

(** [bool(s)] for a nullable text column: [None] and [''] are false. *)
Definition truthy_text (s : option string) : bool :=
  match s with
  | Some s => negb (String.eqb s "")
  | None => false
  end.

(** [bool(pk)] for a nullable integer key: [None] and [0] are false. *)
Definition truthy_id (k : option Z) : bool :=
  match k with
  | Some k => negb (k =? 0)
  | None => false
  end.

(** [l[:num]]: a negative [num] counts from the end. *)
Definition slice_to {A} (num : Z) (l : list A) : list A :=
  if num <? 0 then take (length l - Z.to_nat (- num))%nat l
  else take (Z.to_nat num) l.

(** ** datetime *)

Definition datetime : Type := Z.
Definition MICROSECONDS_PER_DAY : Z := 86400000000.

(** [datetime.timedelta(days)] *)
Definition timedelta (days : Z) : Z := days * MICROSECONDS_PER_DAY.

(** [dt.date()], as a day number. *)
Definition date_of (dt : datetime) : Z := dt `div` MICROSECONDS_PER_DAY.

(** ** The object-relational layer

    What [models.Model.save], [filter], [order_by] and
    [get_next_by_FOO]/[get_previous_by_FOO] do with a table, for the
    constraints and orderings a model declares. *)
Module Orm.
Section Table.
Context {Row : Type}.
(** primary key column *)
Variable pk : Row → option Z.
Variable set_pk : Z → Row → Row.
(** [conflicts new old]: the two rows collide on a [unique] column or on
    a [unique_together] tuple *)
Variable conflicts : Row → Row → bool.

Definition has_pk (k : Z) (r : Row) : bool :=
  match pk r with Some k' => k' =? k | None => false end.

(** next value of the auto-increment key *)
Definition next_id (tbl : list Row) : Z :=
  1 + foldr (λ r m, match pk r with Some k => Z.max k m | None => m end)
        0 tbl.

Definition get (k : Z) (tbl : list Row) : option Row :=
  List.find (has_pk k) tbl.

Definition same_pk (self r : Row) : bool :=
  match pk self with Some k => has_pk k r | None => false end.

(** [Model.save()]: the key counts as set when [bool(pk)] holds; UPDATE
    when it is set and a row with it exists, INSERT otherwise (with the
    next auto-increment key when none is set, and then the object gets
    that key); the database rejects, with [IntegrityError], a row that
    collides with another one on a declared constraint, and the table
    stays as it was. *)
Definition save (self : Row) (tbl : list Row) : result (Row * list Row) :=
  if truthy_id (pk self) && existsb (same_pk self) tbl then
    if existsb (λ r, negb (same_pk self r) && conflicts self r) tbl
    then Raise IntegrityError
    else Ok (self, (λ r, if same_pk self r then self else r) <$> tbl)
  else
    let self' := if truthy_id (pk self) then self
                 else set_pk (next_id tbl) self in
    if existsb (conflicts self') tbl then Raise IntegrityError
    else Ok (self', tbl ++ [self']).

(** [ORDER BY]: insertion sort, rows that compare equal stay in storage
    order. *)
Fixpoint insert_sorted (le : Row → Row → bool) (x : Row) (l : list Row)
  : list Row :=
  match l with
  | [] => [x]
  | y :: l' => if le x y then x :: l else y :: insert_sorted le x l'
  end.

Definition order_by (le : Row → Row → bool) (l : list Row) : list Row :=
  foldr (insert_sorted le) [] l.

(** [qs[0]], with [IndexError] turned into [DoesNotExist] as
    [get_next_by_FOO] does. *)
Definition first_or_DoesNotExist (l : list Row) : result Row :=
  match l with
  | r :: _ => Ok r
  | [] => Raise DoesNotExist
  end.
End Table.
End Orm.

(** ** The tag store *)
Module Tagging.
(** Modelled from the spec: the association rows of the tagging
    application ([tagging.models]), which is not among the sources: a
    label attached to an entity, the entity being named by its content
    type and its id. *)
Record TaggedItem : Type := {
  tag : string;
  content_type : Z;
  object_id : option Z
}.

(** Modelled from the spec: whether a row of the tag store belongs to the
    entity with the given content type and id (the store is keyed by
    entity type and entity id). *)
Definition of_object (ctype : Z) (oid : option Z) (it : TaggedItem) : bool :=
  bool_decide (content_type it = ctype) && bool_decide (object_id it = oid).

(** Modelled from the spec: [Tag.objects.update_tags], absent from the
    sources: replaces the complete tag set of the entity by the given
    labels. *)
Definition update_tags (ctype : Z) (oid : option Z) (labels : list string)
    (store : list TaggedItem) : list TaggedItem :=
  List.filter (λ it, negb (of_object ctype oid it)) store
  ++ ((λ l, {| tag := l; content_type := ctype; object_id := oid |}) <$> labels).

(** Modelled from the spec: [Tag.objects.get_for_object], absent from the
    sources: the set of labels of the entity. *)
Definition get_for_object (ctype : Z) (oid : option Z)
    (store : list TaggedItem) : gset string :=
  list_to_set (tag <$> List.filter (of_object ctype oid) store).
End Tagging.

(** ** The comment tables of [django.contrib.comments] *)
Record CommentRow : Type := {
  content_type_id : Z;
  object_id : Z;
  is_public : bool
}.

(** ** Settings *)
Record Settings : Type := {
  COMMENTS_MODERATE_AFTER : Z;
  DEFAULT_EXTERNAL_LINK_POST : bool;
  DELICIOUS_USER : string;
  DELICIOUS_PASSWORD : string
}.

(** One call of [pydelicious.add]. *)
Record DeliciousPost : Type := {
  post_user : string;
  post_password : string;
  post_url : string;
  post_title : string;
  post_tags : option string
}.

(** * [src/models.py] *)
Module Models.

Definition ENTRY_STATUS_CHOICES : list (Z * string) :=
  [(1, "Live"); (2, "Draft"); (3, "Hidden")]%string.

(** Columns of [Entry] and [Link]. *)
Module Entry.
Record t : Type := {
  id : option Z;
  author : Z;
  enable_comments : bool;
  pub_date : datetime;
  slug : string;
  title : string;
  status : Z;
  body : string;
  body_html : string;
  excerpt : option string;
  excerpt_html : option string;
  categories : list Z;
  tag_list : option string
}.

Definition set_id (k : Z) (e : t) : t :=
  {| id := Some k; author := author e;
     enable_comments := enable_comments e; pub_date := pub_date e;
     slug := slug e; title := title e; status := status e;
     body := body e; body_html := body_html e; excerpt := excerpt e;
     excerpt_html := excerpt_html e; categories := categories e;
     tag_list := tag_list e |}.

Definition set_body (b : string) (e : t) : t :=
  {| id := id e; author := author e;
     enable_comments := enable_comments e; pub_date := pub_date e;
     slug := slug e; title := title e; status := status e;
     body := b; body_html := body_html e; excerpt := excerpt e;
     excerpt_html := excerpt_html e; categories := categories e;
     tag_list := tag_list e |}.

Definition set_body_html (h : string) (e : t) : t :=
  {| id := id e; author := author e;
     enable_comments := enable_comments e; pub_date := pub_date e;
     slug := slug e; title := title e; status := status e;
     body := body e; body_html := h; excerpt := excerpt e;
     excerpt_html := excerpt_html e; categories := categories e;
     tag_list := tag_list e |}.

Definition set_excerpt (x : option string) (e : t) : t :=
  {| id := id e; author := author e;
     enable_comments := enable_comments e; pub_date := pub_date e;
     slug := slug e; title := title e; status := status e;
     body := body e; body_html := body_html e; excerpt := x;
     excerpt_html := excerpt_html e; categories := categories e;
     tag_list := tag_list e |}.

Definition set_excerpt_html (h : option string) (e : t) : t :=
  {| id := id e; author := author e;
     enable_comments := enable_comments e; pub_date := pub_date e;
     slug := slug e; title := title e; status := status e;
     body := body e; body_html := body_html e; excerpt := excerpt e;
     excerpt_html := h; categories := categories e;
     tag_list := tag_list e |}.

(** [Meta.unique_together = (('slug', 'pub_date'),)] *)
Definition conflicts (new old : t) : bool :=
  String.eqb (slug new) (slug old) && (pub_date new =? pub_date old).

(** [Meta.ordering = ['-pub_date']] *)
Definition ordering (a b : t) : bool := pub_date b <=? pub_date a.
End Entry.

Module Link.
Record t : Type := {
  id : option Z;
  enable_comments : bool;
  post_elsewhere : bool;
  posted_by : Z;
  pub_date : datetime;
  title : string;
  slug : string;
  description : string;
  description_html : string;
  via_name : option string;
  via_url : option string;
  tag_list : option string;
  url : string
}.

Definition set_id (k : Z) (l : t) : t :=
  {| id := Some k; enable_comments := enable_comments l;
     post_elsewhere := post_elsewhere l; posted_by := posted_by l;
     pub_date := pub_date l; title := title l; slug := slug l;
     description := description l;
     description_html := description_html l; via_name := via_name l;
     via_url := via_url l; tag_list := tag_list l; url := url l |}.

Definition set_description (d : string) (l : t) : t :=
  {| id := id l; enable_comments := enable_comments l;
     post_elsewhere := post_elsewhere l; posted_by := posted_by l;
     pub_date := pub_date l; title := title l; slug := slug l;
     description := d;
     description_html := description_html l; via_name := via_name l;
     via_url := via_url l; tag_list := tag_list l; url := url l |}.

Definition set_description_html (h : string) (l : t) : t :=
  {| id := id l; enable_comments := enable_comments l;
     post_elsewhere := post_elsewhere l; posted_by := posted_by l;
     pub_date := pub_date l; title := title l; slug := slug l;
     description := description l;
     description_html := h; via_name := via_name l;
     via_url := via_url l; tag_list := tag_list l; url := url l |}.

(** [url = URLField(unique=True)] and
    [Meta.unique_together = (('slug', 'pub_date'),)] *)
Definition conflicts (new old : t) : bool :=
  String.eqb (url new) (url old)
  || (String.eqb (slug new) (slug old) && (pub_date new =? pub_date old)).

(** [Meta.ordering = ['-pub_date']] *)
Definition ordering (a b : t) : bool := pub_date b <=? pub_date a.
End Link.

(** The database and the bookmarking service, as the models see them. *)
Record World : Type := {
  entries : list Entry.t;
  links : list Link.t;
  tagged_items : list Tagging.TaggedItem;
  free_comments : list CommentRow;
  comments : list CommentRow;
  delicious : list DeliciousPost
}.

Definition set_entries (x : list Entry.t) (w : World) : World :=
  {| entries := x; links := links w; tagged_items := tagged_items w;
     free_comments := free_comments w; comments := comments w;
     delicious := delicious w |}.
Definition set_links (x : list Link.t) (w : World) : World :=
  {| entries := entries w; links := x; tagged_items := tagged_items w;
     free_comments := free_comments w; comments := comments w;
     delicious := delicious w |}.
Definition set_tagged_items (x : list Tagging.TaggedItem) (w : World)
  : World :=
  {| entries := entries w; links := links w; tagged_items := x;
     free_comments := free_comments w; comments := comments w;
     delicious := delicious w |}.
Definition set_delicious (x : list DeliciousPost) (w : World) : World :=
  {| entries := entries w; links := links w;
     tagged_items := tagged_items w; free_comments := free_comments w;
     comments := comments w; delicious := x |}.

(** What the models take from their environment: the settings module,
    [utils.apply_markup_filter], the tag-input parser of the tagging
    application, the content types of the two models, and whether the
    bookmarking service accepts a post. *)
Record Env : Type := {
  settings : Settings;
  apply_markup_filter : string → string;
  parse_tag_input : option string → list string;
  entry_ctype : Z;
  link_ctype : Z;
  delicious_accepts : DeliciousPost → bool
}.

(** The same environment with another bookmarking service. *)
Definition with_service (accepts : DeliciousPost → bool) (env : Env) : Env :=
  {| settings := settings env;
     apply_markup_filter := apply_markup_filter env;
     parse_tag_input := parse_tag_input env;
     entry_ctype := entry_ctype env;
     link_ctype := link_ctype env;
     delicious_accepts := accepts |}.

Section Methods.
Variable env : Env.

(** *** [EntryManager] *)

(** [self.filter(status__exact=1)], evaluated in [Meta.ordering]. *)
Definition EntryManager_live (w : World) : list Entry.t :=
  Orm.order_by Entry.ordering
    (List.filter (λ e, Entry.status e =? 1) (entries w)).

(** [self.filter(status__exact=2)], evaluated in [Meta.ordering]. *)
Definition EntryManager_drafts (w : World) : list Entry.t :=
  Orm.order_by Entry.ordering
    (List.filter (λ e, Entry.status e =? 2) (entries w)).

(** [SELECT object_id, COUNT( * ) AS score FROM table
     WHERE content_type_id = ctype AND is_public = 1
     GROUP BY object_id ORDER BY score DESC] *)
Definition ranking_query (table : list CommentRow) (ctype : Z)
  : list (Z * Z) :=
  let rows :=
    List.filter (λ c, (content_type_id c =? ctype) && is_public c) table in
  let score i :=
    Z.of_nat (length (List.filter (λ c, object_id c =? i) rows)) in
  Orm.order_by (λ a b : Z * Z, b.2 <=? a.2)
    ((λ i, (i, score i)) <$> remove_dups (object_id <$> rows)).

(** [in_bulk(id_list)]: the dict from id to row, of the rows whose id
    is listed. *)
Definition in_bulk (id_list : list Z) (tbl : list Entry.t)
  : gmap Z Entry.t :=
  list_to_map (reverse (omap (λ e,
    match Entry.id e with
    | Some k => if bool_decide (k ∈ id_list) then Some (k, e) else None
    | None => None
    end) tbl)).

(** [entry_dict[entry_id]] *)
Definition getitem (d : gmap Z Entry.t) (k : Z) : result Entry.t :=
  match d !! k with
  | Some e => Ok e
  | None => Raise (KeyError k)
  end.

(** [[f(x) for x in l]], stopping at the first exception. *)
Fixpoint comprehension {A B} (f : A → result B) (l : list A)
  : result (list B) :=
  match l with
  | [] => Ok []
  | x :: l' =>
      match f x with
      | Ok y =>
          match comprehension f l' with
          | Ok ys => Ok (y :: ys)
          | Raise e => Raise e
          end
      | Raise e => Raise e
      end
  end.

Definition EntryManager_most_commented (num : Z) (free : bool)
    (w : World) : result (list Entry.t) :=
  let comment_table := if free then free_comments w else comments w in
  let ctype := entry_ctype env in
  let rows := ranking_query comment_table ctype in
  let entry_ids := fst <$> slice_to num rows in
  let entry_dict := in_bulk entry_ids (entries w) in
  comprehension (getitem entry_dict) entry_ids.

(** *** [Entry] *)

(** [super(Entry, self).save()] *)
Definition Entry_super_save (self : Entry.t) : M World Entry.t :=
  λ w, match Orm.save Entry.id Entry.set_id Entry.conflicts self
               (entries w) with
       | Ok (self', tbl) => (Ok self', set_entries tbl w)
       | Raise e => (Raise e, w)
       end.

Definition Entry__get_tags (self : Entry.t) (w : World) : gset string :=
  Tagging.get_for_object (entry_ctype env) (Entry.id self)
    (tagged_items w).

Definition Entry__set_tags (self : Entry.t) (tag_list : option string)
  : M World unit :=
  modify (λ w, set_tagged_items
    (Tagging.update_tags (entry_ctype env) (Entry.id self)
       (parse_tag_input env tag_list) (tagged_items w)) w).

Definition Entry_save (self : Entry.t) : M World Entry.t :=
  let self :=
    if truthy_text (Entry.excerpt self)
    then Entry.set_excerpt_html
           (apply_markup_filter env <$> Entry.excerpt self) self
    else self in
  let self :=
    Entry.set_body_html (apply_markup_filter env (Entry.body self)) self in
  self ← Entry_super_save self;
  Entry__set_tags self (Entry.tag_list self);;
  mret self.

(** [Entry.__init__] with keyword arguments: a field left out takes its declared default. *)
Definition Entry_init (today : datetime) (author : Z)
    (enable_comments : option bool) (pub_date : option datetime)
    (slug title : string) (status : option Z) (body : string)
    (excerpt : option string) (tag_list : option string) : Entry.t :=
  {| Entry.id := None;
     Entry.author := author;
     Entry.enable_comments := default true enable_comments;
     Entry.pub_date := default today pub_date;
     Entry.slug := slug;
     Entry.title := title;
     Entry.status := default 1 status;
     Entry.body := body;
     Entry.body_html := "";
     Entry.excerpt := excerpt;
     Entry.excerpt_html := None;
     Entry.categories := [];
     Entry.tag_list := tag_list |}.

Definition Entry_comments_open (today : datetime) (self : Entry.t)
  : bool :=
  Entry.enable_comments self
  && (today - timedelta (COMMENTS_MODERATE_AFTER (settings env))
      <=? Entry.pub_date self).

(** *** [Link] *)

(** [pydelicious.add(...)]: the call reaches the service, which accepts
    it or fails. *)
Definition pydelicious_add (p : DeliciousPost) : M World unit :=
  λ w, let w' := set_delicious (delicious w ++ [p]) w in
       if delicious_accepts env p then (Ok tt, w')
       else (Raise IOError, w').

(** [super(Link, self).save()] *)
Definition Link_super_save (self : Link.t) : M World Link.t :=
  λ w, match Orm.save Link.id Link.set_id Link.conflicts self
               (links w) with
       | Ok (self', tbl) => (Ok self', set_links tbl w)
       | Raise e => (Raise e, w)
       end.

Definition Link__get_tags (self : Link.t) (w : World) : gset string :=
  Tagging.get_for_object (link_ctype env) (Link.id self)
    (tagged_items w).

Definition Link__set_tags (self : Link.t) (tag_list : option string)
  : M World unit :=
  modify (λ w, set_tagged_items
    (Tagging.update_tags (link_ctype env) (Link.id self)
       (parse_tag_input env tag_list) (tagged_items w)) w).

(** The arguments of the call [pydelicious.add(...)] in [Link.save]. *)
Definition Link_post (self : Link.t) : DeliciousPost :=
  {| post_user := DELICIOUS_USER (settings env);
     post_password := DELICIOUS_PASSWORD (settings env);
     post_url := Link.url self;
     post_title := Link.title self;
     post_tags := Link.tag_list self |}.

Definition Link_save (self : Link.t) : M World Link.t :=
  when (negb (truthy_id (Link.id self)) && Link.post_elsewhere self)
    (try_except_pass (pydelicious_add (Link_post self)));;
  let self :=
    Link.set_description_html
      (apply_markup_filter env (Link.description self)) self in
  self ← Link_super_save self;
  Link__set_tags self (Link.tag_list self);;
  mret self.

Definition Link_comments_open (today : datetime) (self : Link.t)
  : bool :=
  Link.enable_comments self
  && (today - timedelta (COMMENTS_MODERATE_AFTER (settings env))
      <=? Link.pub_date self).
End Methods.

End Models.

(** * [src/coltrane/models.py] *)
Module Coltrane.

Module Category.
Record t : Type := {
  id : option Z;
  title : string;
  slug : string;
  description : string;
  description_html : string
}.

Definition set_id (k : Z) (c : t) : t :=
  {| id := Some k; title := title c; slug := slug c;
     description := description c;
     description_html := description_html c |}.

Definition set_description_html (h : string) (c : t) : t :=
  {| id := id c; title := title c; slug := slug c;
     description := description c; description_html := h |}.

(** [slug = SlugField(unique=True)] *)
Definition conflicts (new old : t) : bool :=
  String.eqb (slug new) (slug old).
End Category.

Module Entry.
Definition LIVE_STATUS : Z := 1.
Definition DRAFT_STATUS : Z := 2.
Definition HIDDEN_STATUS : Z := 3.
Definition STATUS_CHOICES : list (Z * string) :=
  [(LIVE_STATUS, "Live"); (DRAFT_STATUS, "Draft");
   (HIDDEN_STATUS, "Hidden")]%string.

Record t : Type := {
  id : option Z;
  author : Z;
  enable_comments : bool;
  featured : bool;
  pub_date : datetime;
  slug : string;
  status : Z;
  title : string;
  body : string;
  body_html : string;
  excerpt : option string;
  excerpt_html : option string;
  categories : list Z;
  tags : string
}.

Definition set_id (k : Z) (e : t) : t :=
  {| id := Some k; author := author e;
     enable_comments := enable_comments e; featured := featured e;
     pub_date := pub_date e; slug := slug e; status := status e;
     title := title e; body := body e; body_html := body_html e;
     excerpt := excerpt e; excerpt_html := excerpt_html e;
     categories := categories e; tags := tags e |}.

Definition set_body (b : string) (e : t) : t :=
  {| id := id e; author := author e;
     enable_comments := enable_comments e; featured := featured e;
     pub_date := pub_date e; slug := slug e; status := status e;
     title := title e; body := b; body_html := body_html e;
     excerpt := excerpt e; excerpt_html := excerpt_html e;
     categories := categories e; tags := tags e |}.

Definition set_body_html (h : string) (e : t) : t :=
  {| id := id e; author := author e;
     enable_comments := enable_comments e; featured := featured e;
     pub_date := pub_date e; slug := slug e; status := status e;
     title := title e; body := body e; body_html := h;
     excerpt := excerpt e; excerpt_html := excerpt_html e;
     categories := categories e; tags := tags e |}.

Definition set_excerpt (x : option string) (e : t) : t :=
  {| id := id e; author := author e;
     enable_comments := enable_comments e; featured := featured e;
     pub_date := pub_date e; slug := slug e; status := status e;
     title := title e; body := body e; body_html := body_html e;
     excerpt := x; excerpt_html := excerpt_html e;
     categories := categories e; tags := tags e |}.

Definition set_excerpt_html (h : option string) (e : t) : t :=
  {| id := id e; author := author e;
     enable_comments := enable_comments e; featured := featured e;
     pub_date := pub_date e; slug := slug e; status := status e;
     title := title e; body := body e; body_html := body_html e;
     excerpt := excerpt e; excerpt_html := h;
     categories := categories e; tags := tags e |}.

(** No column of [Entry] is declared [unique] and [Meta] has no
    [unique_together]; [unique_for_date] on [slug] is a check of the
    admin forms, [save] does not run it. *)
Definition conflicts (new old : t) : bool := false.

(** [Meta.ordering = ['-pub_date']] *)
Definition ordering (a b : t) : bool := pub_date b <=? pub_date a.
End Entry.

Module Link.
Record t : Type := {
  id : option Z;
  enable_comments : bool;
  post_elsewhere : bool;
  posted_by : Z;
  pub_date : datetime;
  slug : string;
  title : string;
  description : option string;
  description_html : option string;
  via_name : option string;
  via_url : option string;
  tags : string;
  url : string
}.

Definition set_id (k : Z) (l : t) : t :=
  {| id := Some k; enable_comments := enable_comments l;
     post_elsewhere := post_elsewhere l; posted_by := posted_by l;
     pub_date := pub_date l; slug := slug l; title := title l;
     description := description l;
     description_html := description_html l; via_name := via_name l;
     via_url := via_url l; tags := tags l; url := url l |}.

Definition set_description (d : option string) (l : t) : t :=
  {| id := id l; enable_comments := enable_comments l;
     post_elsewhere := post_elsewhere l; posted_by := posted_by l;
     pub_date := pub_date l; slug := slug l; title := title l;
     description := d;
     description_html := description_html l; via_name := via_name l;
     via_url := via_url l; tags := tags l; url := url l |}.

Definition set_description_html (h : option string) (l : t) : t :=
  {| id := id l; enable_comments := enable_comments l;
     post_elsewhere := post_elsewhere l; posted_by := posted_by l;
     pub_date := pub_date l; slug := slug l; title := title l;
     description := description l;
     description_html := h; via_name := via_name l;
     via_url := via_url l; tags := tags l; url := url l |}.

(** [url = URLField(unique=True)]; [unique_for_date] on [slug] is a
    check of the admin forms, [save] does not run it. *)
Definition conflicts (new old : t) : bool :=
  String.eqb (url new) (url old).

(** [Meta.ordering = ['-pub_date']] *)
Definition ordering (a b : t) : bool := pub_date b <=? pub_date a.
End Link.

Record World : Type := {
  categories : list Category.t;
  entries : list Entry.t;
  links : list Link.t;
  delicious : list DeliciousPost
}.

Definition set_categories (x : list Category.t) (w : World) : World :=
  {| categories := x; entries := entries w; links := links w;
     delicious := delicious w |}.
Definition set_entries (x : list Entry.t) (w : World) : World :=
  {| categories := categories w; entries := x; links := links w;
     delicious := delicious w |}.
Definition set_links (x : list Link.t) (w : World) : World :=
  {| categories := categories w; entries := entries w; links := x;
     delicious := delicious w |}.
Definition set_delicious (x : list DeliciousPost) (w : World) : World :=
  {| categories := categories w; entries := entries w; links := links w;
     delicious := x |}.

(** The settings module, [template_utils.markup.formatter], [smart_str]
    and whether the bookmarking service accepts a post. *)
Record Env : Type := {
  settings : Settings;
  formatter : string → string;
  smart_str : string → string;
  delicious_accepts : DeliciousPost → bool
}.

(** The same environment with another bookmarking service. *)
Definition with_service (accepts : DeliciousPost → bool) (env : Env) : Env :=
  {| settings := settings env;
     formatter := formatter env;
     smart_str := smart_str env;
     delicious_accepts := accepts |}.

(** [pk__gt] / [pk__lt] on nullable keys: false when either is null. *)
Definition pk_lt (a b : option Z) : bool :=
  match a, b with
  | Some x, Some y => x <? y
  | _, _ => false
  end.

(** [ORDER BY pk]: a null key sorts before every other. *)
Definition pk_le (a b : option Z) : bool :=
  match a, b with
  | None, _ => true
  | Some _, None => false
  | Some x, Some y => x <=? y
  end.

(** The [WHERE] clause of [get_next_by_pub_date] ([get_previous_by_pub_date]
    when [is_next] is false): [r] lies strictly after (before) [self] by
    [pub_date], the key deciding between equal dates. *)
Definition beyond (is_next : bool) (self r : Entry.t) : bool :=
  if is_next then
    (Entry.pub_date self <? Entry.pub_date r)
    || ((Entry.pub_date r =? Entry.pub_date self)
        && pk_lt (Entry.id self) (Entry.id r))
  else
    (Entry.pub_date r <? Entry.pub_date self)
    || ((Entry.pub_date r =? Entry.pub_date self)
        && pk_lt (Entry.id r) (Entry.id self)).

(** [ORDER BY pub_date, pk]. *)
Definition by_pub_date (a b : Entry.t) : bool :=
  (Entry.pub_date a <? Entry.pub_date b)
  || ((Entry.pub_date a =? Entry.pub_date b)
      && pk_le (Entry.id a) (Entry.id b)).

(** [Model._get_next_or_previous_by_FIELD] for the field [pub_date]: the
    first row, in the order [(pub_date, pk)] (reversed for "previous"),
    among the rows of the default manager that satisfy the keyword
    filter and lie strictly after (before) [self] in that order; the
    [IndexError] of [qs[0]] on an empty result is turned into
    [DoesNotExist]. *)
Definition get_next_or_previous_by_pub_date (is_next : bool)
    (self : Entry.t) (kwargs : Entry.t → bool) (tbl : list Entry.t)
  : result Entry.t :=
  let order (a b : Entry.t) : bool :=
    if is_next then by_pub_date a b else by_pub_date b a in
  Orm.first_or_DoesNotExist
    (Orm.order_by order
       (List.filter (beyond is_next self) (List.filter kwargs tbl))).

Section Methods.
Variable env : Env.

(** *** [Category] *)

(** [super(Category, self).save()] *)
Definition Category_super_save (self : Category.t)
  : M World Category.t :=
  λ w, match Orm.save Category.id Category.set_id Category.conflicts
               self (categories w) with
       | Ok (self', tbl) => (Ok self', set_categories tbl w)
       | Raise e => (Raise e, w)
       end.

Definition Category_save (self : Category.t) : M World Category.t :=
  let self :=
    Category.set_description_html
      (formatter env (Category.description self)) self in
  Category_super_save self.

(** [self.entry_set.filter(status__exact=Entry.LIVE_STATUS)].  Reading
    [entry_set] builds the related manager of the many-to-many relation,
    which raises [ValueError] for a category whose key is [None]; with a
    key it selects the entries that list the key among their categories,
    in the default ordering of [Entry]. *)
Definition Category__get_live_entries (self : Category.t) (w : World)
  : result (list Entry.t) :=
  match Category.id self with
  | None => Raise ValueError
  | Some k =>
      Ok (Orm.order_by Entry.ordering
            (List.filter (λ e, Entry.status e =? Entry.LIVE_STATUS)
               (List.filter (λ e, bool_decide (k ∈ Entry.categories e))
                  (entries w))))
  end.

(** *** [Entry] *)

(** [super(Entry, self).save()] *)
Definition Entry_super_save (self : Entry.t) : M World Entry.t :=
  λ w, match Orm.save Entry.id Entry.set_id Entry.conflicts self
               (entries w) with
       | Ok (self', tbl) => (Ok self', set_entries tbl w)
       | Raise e => (Raise e, w)
       end.

Definition Entry_save (self : Entry.t) : M World Entry.t :=
  let self :=
    if truthy_text (Entry.excerpt self)
    then Entry.set_excerpt_html (formatter env <$> Entry.excerpt self) self
    else self in
  let self := Entry.set_body_html (formatter env (Entry.body self)) self in
  Entry_super_save self.

(** [getattr(self, 'get_%s_by_pub_date' % direction)
     (status__exact=self.LIVE_STATUS)] *)
Definition Entry__next_previous_helper (self : Entry.t)
    (direction : string) (w : World) : result Entry.t :=
  let kwargs (e : Entry.t) := Entry.status e =? Entry.LIVE_STATUS in
  if String.eqb direction "next" then
    get_next_or_previous_by_pub_date true self kwargs (entries w)
  else if String.eqb direction "previous" then
    get_next_or_previous_by_pub_date false self kwargs (entries w)
  else Raise AttributeError.

Definition Entry_get_next (self : Entry.t) (w : World)
  : result Entry.t :=
  Entry__next_previous_helper self "next" w.

Definition Entry_get_previous (self : Entry.t) (w : World)
  : result Entry.t :=
  Entry__next_previous_helper self "previous" w.

Definition Entry__get_category_count (self : Entry.t) : Z :=
  Z.of_nat (length (Entry.categories self)).

(** [model.objects.filter(content_type__pk=ctype.id,
     object_id__exact=self.id).count()], on the table of the comment model
    in use. *)
Definition Entry__get_comment_count (ctype : Z)
    (comment_table : list CommentRow) (self : Entry.t) : Z :=
  Z.of_nat (length (List.filter
    (λ c, (content_type_id c =? ctype)
          && match Entry.id self with
             | Some k => object_id c =? k
             | None => false
             end)
    comment_table)).

(** [Entry.__init__] with keyword arguments: a field left out takes
    its declared default. *)
Definition Entry_init (today : datetime) (author : Z)
    (enable_comments featured : option bool)
    (pub_date : option datetime) (slug : string) (status : option Z)
    (title body : string) (excerpt : option string) (tags : string)
  : Entry.t :=
  {| Entry.id := None;
     Entry.author := author;
     Entry.enable_comments := default true enable_comments;
     Entry.featured := default false featured;
     Entry.pub_date := default today pub_date;
     Entry.slug := slug;
     Entry.status := default Entry.LIVE_STATUS status;
     Entry.title := title;
     Entry.body := body;
     Entry.body_html := "";
     Entry.excerpt := excerpt;
     Entry.excerpt_html := None;
     Entry.categories := [];
     Entry.tags := tags |}.

(** *** [Link] *)

Definition pydelicious_add (p : DeliciousPost) : M World unit :=
  λ w, let w' := set_delicious (delicious w ++ [p]) w in
       if delicious_accepts env p then (Ok tt, w')
       else (Raise IOError, w').

(** [super(Link, self).save()] *)
Definition Link_super_save (self : Link.t) : M World Link.t :=
  λ w, match Orm.save Link.id Link.set_id Link.conflicts self
               (links w) with
       | Ok (self', tbl) => (Ok self', set_links tbl w)
       | Raise e => (Raise e, w)
       end.

(** The arguments of the call [pydelicious.add(...)] in [Link.save]. *)
Definition Link_post (self : Link.t) : DeliciousPost :=
  {| post_user := DELICIOUS_USER (settings env);
     post_password := DELICIOUS_PASSWORD (settings env);
     post_url := smart_str env (Link.url self);
     post_title := smart_str env (Link.title self);
     post_tags := Some (smart_str env (Link.tags self)) |}.

Definition Link_save (self : Link.t) : M World Link.t :=
  when (negb (truthy_id (Link.id self)) && Link.post_elsewhere self)
    (try_except_pass (pydelicious_add (Link_post self)));;
  let self :=
    if truthy_text (Link.description self)
    then Link.set_description_html
           (formatter env <$> Link.description self) self
    else self in
  Link_super_save self.
End Methods.

(** The class attributes of [ColtraneModerator]. *)
Record CommentModerator : Type := {
  akismet : bool;
  auto_close_field : string;
  email_notification : bool;
  enable_field : string;
  close_after : Z
}.

Definition ColtraneModerator (env : Env) : CommentModerator :=
  {| akismet := true;
     auto_close_field := "pub_date";
     email_notification := true;
     enable_field := "enable_comments";
     close_after := COMMENTS_MODERATE_AFTER (settings env) |}.

End Coltrane.

(** * The code [src/coltrane/models.py] runs when it is imported *)
Module Setup.

(** What the import of the module can end in. *)
Inductive load_exn : Type :=
  | AttributeError
  | ImportError
  | ImproperlyConfigured
  | ValueError
  | OtherError.

Inductive outcome (A : Type) : Type :=
  | Loaded (a : A)
  | Failed (e : load_exn).
Arguments Loaded {A} a.
Arguments Failed {A} e.

(** [s.split(sep)] for a separator of one character. *)
Fixpoint split (sep : Ascii.ascii) (s : string) : list string :=
  match s with
  | EmptyString => [EmptyString]
  | String c rest =>
      if Ascii.eqb c sep then EmptyString :: split sep rest
      else match split sep rest with
           | [] => [String c EmptyString]
           | head :: tail => String c head :: tail
           end
  end.

(** The character ['.']. *)
Definition dot : Ascii.ascii := Ascii.Ascii false true true true false true false false.

(** [except (AttributeError, ImportError, ImproperlyConfigured):] *)
Definition caught (e : load_exn) : bool :=
  match e with
  | AttributeError | ImportError | ImproperlyConfigured => true
  | ValueError | OtherError => false
  end.

Section CommentModel.
Context {Model : Type}.
(** [comment_models.FreeComment] and [comment_models.Comment] *)
Variable FreeComment Comment : Model.
(** [models.get_model(app_label, model_name)]: a model, [None], or an
    exception *)
Variable get_model : string → string → outcome (option Model).

(** The choice of [comment_model]: [COLTRANE_COMMENT_MODULE] is the value of
    [getattr(settings, 'COLTRANE_COMMENT_MODULE', None)], where [None]
    has no [split] and so raises [AttributeError] inside the [try]. *)
Definition comment_model (COLTRANE_COMMENT_MODULE : option string)
    (USE_FREE_COMMENTS : bool) : outcome (option Model) :=
  let fallback :=
    Loaded (Some (if USE_FREE_COMMENTS then FreeComment else Comment)) in
  match COLTRANE_COMMENT_MODULE with
  | None => fallback
  | Some comment_module =>
      match split dot comment_module with
      | [app_label; model_name] =>
          match get_model app_label model_name with
          | Loaded m => Loaded m
          | Failed e => if caught e then fallback else Failed e
          end
      | _ => Failed ValueError
      end
  end.
End CommentModel.

(** The number of occurrences of a character in a string. *)
Fixpoint occurrences (c : Ascii.ascii) (s : string) : nat :=
  match s with
  | EmptyString => 0
  | String c' rest =>
      ((if Ascii.eqb c' c then 1 else 0) + occurrences c rest)%nat
  end.

End Setup.

(** * Statements of the specification *)
Module Spec.
(** A rendered column mirrors its source column: it holds the rendering of
    the source, or both are empty. *)
Definition mirrors (render : string → string) (source html : option string)
  : Prop :=
  html = render <$> source
  ∨ (truthy_text source = false ∧ truthy_text html = false).

(** A history of one link: each step edits the object and saves it again.
    A save that raises leaves the object without the key it did not get,
    and the next step is tried on that object.  What the failed save
    rendered in memory is not kept: the call of the service reads the
    address, the title and the tags only. *)
Fixpoint resave (env : Coltrane.Env)
    (edits : list (Coltrane.Link.t → Coltrane.Link.t))
    (self : Coltrane.Link.t) (w : Coltrane.World) : Coltrane.World :=
  match edits with
  | [] => w
  | f :: rest =>
      match Coltrane.Link_save env (f self) w with
      | (Ok s, w') => resave env rest s w'
      | (Raise _, w') => resave env rest (f self) w'
      end
  end.

(** The same for a link of [src/models.py]. *)
Fixpoint resave_legacy (env : Models.Env)
    (edits : list (Models.Link.t → Models.Link.t))
    (self : Models.Link.t) (w : Models.World) : Models.World :=
  match edits with
  | [] => w
  | f :: rest =>
      match Models.Link_save env (f self) w with
      | (Ok s, w') => resave_legacy env rest s w'
      | (Raise _, w') => resave_legacy env rest (f self) w'
      end
  end.


(** [count_public_comments_for(entity)] of the comment source: the number
    of publicly visible comments on the entity with the given content type
    and key. *)
Definition public_count (table : list CommentRow) (ctype k : Z) : Z :=
  Z.of_nat (length (List.filter
    (λ c, (content_type_id c =? ctype) && is_public c && (object_id c =? k))
    table)).

(** The bookmarking service is called at most once per link: over any
    history of a link that starts without a key, at most one call is
    added to the log, however often the link is edited and saved. *)
Definition posts_at_most_once_per_link : Prop :=
  ∀ (env : Coltrane.Env) (edits : list (Coltrane.Link.t → Coltrane.Link.t))
    (self : Coltrane.Link.t) (w : Coltrane.World),
    Coltrane.Link.id self = None →
    Forall (λ f, ∀ l, Coltrane.Link.id (f l) = Coltrane.Link.id l) edits →
    (length (Coltrane.delicious (resave env edits self w))
     ≤ length (Coltrane.delicious w) + 1)%nat.
End Spec.

(** * Sample data *)
Module Samples.
Definition paragraph (text : string) : string :=
  ("<p>" ++ text ++ "</p>")%string.

Definition sample_settings : Settings :=
  {| COMMENTS_MODERATE_AFTER := 30;
     DEFAULT_EXTERNAL_LINK_POST := false;
     DELICIOUS_USER := "user";
     DELICIOUS_PASSWORD := "secret" |}.

(** An environment whose bookmarking service refuses every post. *)
Definition env : Models.Env :=
  {| Models.settings := sample_settings;
     Models.apply_markup_filter := paragraph;
     Models.parse_tag_input :=
       λ t, match t with Some s => [s] | None => [] end;
     Models.entry_ctype := 10;
     Models.link_ctype := 11;
     Models.delicious_accepts := λ _, false |}.

Definition empty_world : Models.World :=
  {| Models.entries := []; Models.links := [];
     Models.tagged_items := []; Models.free_comments := [];
     Models.comments := []; Models.delicious := [] |}.

(** An entry built without a status. *)
Definition entry : Models.Entry.t :=
  Models.Entry_init 0 1 None None "first" "First" None "hello"
    (Some "teaser"%string) None.

Definition cenv : Coltrane.Env :=
  {| Coltrane.settings := sample_settings;
     Coltrane.formatter := paragraph;
     Coltrane.smart_str := λ s, s;
     Coltrane.delicious_accepts := λ _, false |}.

Definition cempty_world : Coltrane.World :=
  {| Coltrane.categories := []; Coltrane.entries := [];
     Coltrane.links := []; Coltrane.delicious := [] |}.

Definition centry : Coltrane.Entry.t :=
  Coltrane.Entry_init 0 1 None None None "first" None "First" "hello"
    (Some "teaser"%string) "".

(** The sample entry after its first save, and the store it is in. *)
Definition centry_saved : Coltrane.Entry.t * Coltrane.World :=
  match Coltrane.Entry_save cenv centry cempty_world with
  | (Ok e, w) => (e, w)
  | (Raise _, w) => (centry, w)
  end.

(** The saved entry with its excerpt edited to be empty. *)
Definition centry_emptied : Coltrane.Entry.t :=
  Coltrane.Entry.set_excerpt (Some ""%string) centry_saved.1.

(** A new link that asks to be posted elsewhere. *)
Definition clink : Coltrane.Link.t :=
  {| Coltrane.Link.id := None;
     Coltrane.Link.enable_comments := true;
     Coltrane.Link.post_elsewhere := true;
     Coltrane.Link.posted_by := 1;
     Coltrane.Link.pub_date := 0;
     Coltrane.Link.slug := "rocq";
     Coltrane.Link.title := "Rocq";
     Coltrane.Link.description := Some "a prover"%string;
     Coltrane.Link.description_html := None;
     Coltrane.Link.via_name := None;
     Coltrane.Link.via_url := None;
     Coltrane.Link.tags := "proof";
     Coltrane.Link.url := "http://rocq-prover.org/" |}.

Definition link : Models.Link.t :=
  {| Models.Link.id := None;
     Models.Link.enable_comments := true;
     Models.Link.post_elsewhere := true;
     Models.Link.posted_by := 1;
     Models.Link.pub_date := 0;
     Models.Link.title := "Rocq";
     Models.Link.slug := "rocq";
     Models.Link.description := "a prover";
     Models.Link.description_html := "";
     Models.Link.via_name := None;
     Models.Link.via_url := None;
     Models.Link.tag_list := Some "proof"%string;
     Models.Link.url := "http://rocq-prover.org/" |}.

(** The sample link after its first save, the service refusing the post. *)
Definition clink_saved : Coltrane.Link.t * Coltrane.World :=
  match Coltrane.Link_save cenv clink cempty_world with
  | (Ok l, w) => (l, w)
  | (Raise _, w) => (clink, w)
  end.

(** The sample link of [src/models.py] after its first save. *)
Definition link_saved : Models.Link.t * Models.World :=
  match Models.Link_save env link empty_world with
  | (Ok l, w) => (l, w)
  | (Raise _, w) => (link, w)
  end.

(** Another new link: same slug, one microsecond later, another address. *)
Definition link_same_day : Models.Link.t :=
  {| Models.Link.id := None;
     Models.Link.enable_comments := true;
     Models.Link.post_elsewhere := false;
     Models.Link.posted_by := 1;
     Models.Link.pub_date := 1;
     Models.Link.title := "Rocq again";
     Models.Link.slug := "rocq";
     Models.Link.description := "the same prover";
     Models.Link.description_html := "";
     Models.Link.via_name := None;
     Models.Link.via_url := None;
     Models.Link.tag_list := None;
     Models.Link.url := "http://rocq-prover.org/doc" |}.


(** A new link of [src/coltrane/models.py] with the slug and the very
    [pub_date] of the sample link, at another address. *)
Definition clink_same_slug : Coltrane.Link.t :=
  {| Coltrane.Link.id := None;
     Coltrane.Link.enable_comments := true;
     Coltrane.Link.post_elsewhere := false;
     Coltrane.Link.posted_by := 1;
     Coltrane.Link.pub_date := 0;
     Coltrane.Link.slug := "rocq";
     Coltrane.Link.title := "Rocq again";
     Coltrane.Link.description := None;
     Coltrane.Link.description_html := None;
     Coltrane.Link.via_name := None;
     Coltrane.Link.via_url := None;
     Coltrane.Link.tags := "";
     Coltrane.Link.url := "http://rocq-prover.org/doc" |}.

(** The sample entry of [src/models.py] after its first save. *)
Definition entry_saved : Models.Entry.t * Models.World :=
  match Models.Entry_save env entry empty_world with
  | (Ok e, w) => (e, w)
  | (Raise _, w) => (entry, w)
  end.

(** Three stored entries: Live at time 1, Hidden at time 2, Live at time 3. *)
Definition stored_entry (k : Z) (t : datetime) (status : Z)
  : Coltrane.Entry.t :=
  {| Coltrane.Entry.id := Some k;
     Coltrane.Entry.author := 1;
     Coltrane.Entry.enable_comments := true;
     Coltrane.Entry.featured := false;
     Coltrane.Entry.pub_date := t;
     Coltrane.Entry.slug := "entry";
     Coltrane.Entry.status := status;
     Coltrane.Entry.title := "Entry";
     Coltrane.Entry.body := "text";
     Coltrane.Entry.body_html := "<p>text</p>";
     Coltrane.Entry.excerpt := None;
     Coltrane.Entry.excerpt_html := None;
     Coltrane.Entry.categories := [];
     Coltrane.Entry.tags := "" |}.

Definition t1 : Coltrane.Entry.t := stored_entry 1 1 Coltrane.Entry.LIVE_STATUS.
Definition t2 : Coltrane.Entry.t := stored_entry 2 2 Coltrane.Entry.HIDDEN_STATUS.
Definition t3 : Coltrane.Entry.t := stored_entry 3 3 Coltrane.Entry.LIVE_STATUS.

Definition three_entries : Coltrane.World :=
  {| Coltrane.categories := []; Coltrane.entries := [t3; t1; t2];
     Coltrane.links := []; Coltrane.delicious := [] |}.

(** Entries A, B and C of [src/models.py], stored under the keys 1, 2, 3. *)
Definition stored (k : Z) (title : string) : Models.Entry.t :=
  Models.Entry.set_id k
    (Models.Entry_init 0 1 None (Some k) title title None "text" None None).

Definition entry_A : Models.Entry.t := stored 1 "A".
Definition entry_B : Models.Entry.t := stored 2 "B".
Definition entry_C : Models.Entry.t := stored 3 "C".

Definition comment_on (k : Z) (public : bool) : CommentRow :=
  {| content_type_id := Models.entry_ctype env; object_id := k;
     is_public := public |}.

(** Public comments: five on A, one on B, three on C; besides, two hidden
    comments on B and a public comment on a link with the key of B. *)
Definition commented_world : Models.World :=
  {| Models.entries := [entry_A; entry_B; entry_C];
     Models.links := [];
     Models.tagged_items := [];
     Models.free_comments :=
       [comment_on 3 true; comment_on 1 true; comment_on 2 false;
        comment_on 1 true; comment_on 2 true; comment_on 3 true;
        {| content_type_id := Models.link_ctype env; object_id := 2;
           is_public := true |};
        comment_on 1 true; comment_on 1 true; comment_on 2 false;
        comment_on 3 true; comment_on 1 true];
     Models.comments := [];
     Models.delicious := [] |}.

(** The same store after entry C was deleted: its comments are rows of
    another application and stay behind. *)
Definition world_after_delete : Models.World :=
  Models.set_entries [entry_A; entry_B] commented_world.

(** An edit of a stored entry: its status becomes Hidden. *)
Definition hide (e : Models.Entry.t) : Models.Entry.t :=
  {| Models.Entry.id := Models.Entry.id e;
     Models.Entry.author := Models.Entry.author e;
     Models.Entry.enable_comments := Models.Entry.enable_comments e;
     Models.Entry.pub_date := Models.Entry.pub_date e;
     Models.Entry.slug := Models.Entry.slug e;
     Models.Entry.title := Models.Entry.title e;
     Models.Entry.status := 3;
     Models.Entry.body := Models.Entry.body e;
     Models.Entry.body_html := Models.Entry.body_html e;
     Models.Entry.excerpt := Models.Entry.excerpt e;
     Models.Entry.excerpt_html := Models.Entry.excerpt_html e;
     Models.Entry.categories := Models.Entry.categories e;
     Models.Entry.tag_list := Models.Entry.tag_list e |}.

(** A new category. *)
Definition category : Coltrane.Category.t :=
  {| Coltrane.Category.id := None;
     Coltrane.Category.title := "Proofs";
     Coltrane.Category.slug := "proofs";
     Coltrane.Category.description := "";
     Coltrane.Category.description_html := "stale" |}.
End Samples.

(** * Properties *)

(** ** The object-relational layer *)
Section OrmFacts.
Context {Row : Type}.
Implicit Types (le : Row → Row → bool) (l : list Row).

Lemma insert_sorted_Permutation le x l :
  Orm.insert_sorted le x l ≡ₚ x :: l.
Proof.
  induction l as [|y l IH]; simpl; [done|].
  destruct (le x y); [done|]. rewrite IH. apply Permutation_swap.
Qed.

Lemma order_by_Permutation le l : Orm.order_by le l ≡ₚ l.
Proof.
  induction l as [|x l IH]; simpl; [done|].
  rewrite insert_sorted_Permutation. by f_equiv.
Qed.

Lemma elem_of_order_by le l x : x ∈ Orm.order_by le l ↔ x ∈ l.
Proof. by rewrite order_by_Permutation. Qed.

Lemma length_order_by le l : length (Orm.order_by le l) = length l.
Proof. by rewrite order_by_Permutation. Qed.

Section Sorted.
Variable le : Row → Row → bool.
Hypothesis le_total : ∀ a b, le a b = true ∨ le b a = true.
Hypothesis le_trans : ∀ a b c, le a b = true → le b c = true → le a c = true.

Lemma insert_sorted_StronglySorted x l :
  StronglySorted (λ a b, le a b = true) l →
  StronglySorted (λ a b, le a b = true) (Orm.insert_sorted le x l).
Proof.
  induction 1 as [|y l Hl IH Hy]; simpl.
  - repeat constructor.
  - destruct (le x y) eqn:Hxy.
    + constructor; [by constructor|].
      constructor; [done|].
      eapply Forall_impl; [exact Hy|]. intros z Hz. by eapply le_trans.
    + constructor; [done|].
      rewrite insert_sorted_Permutation. constructor; [|done].
      destruct (le_total x y); congruence.
Qed.

Lemma order_by_StronglySorted l :
  StronglySorted (λ a b, le a b = true) (Orm.order_by le l).
Proof.
  induction l as [|x l IH]; simpl; [constructor|].
  by apply insert_sorted_StronglySorted.
Qed.
(** The first row of an ordered result precedes every row of it. *)
Lemma order_by_head l x rest :
  Orm.order_by le l = x :: rest →
  x ∈ l ∧ ∀ y, y ∈ l → le x y = true.
Proof.
  intros Heq. pose proof (order_by_StronglySorted l) as Hs.
  pose proof (order_by_Permutation le l) as Hp. rewrite Heq in Hs, Hp.
  split.
  - rewrite <- Hp. by left.
  - intros y Hy. rewrite <- Hp in Hy.
    apply StronglySorted_inv in Hs as [_ Hall].
    apply elem_of_cons in Hy as [->|Hy].
    + by destruct (le_total x x).
    + by eapply Forall_forall in Hall.
Qed.
End Sorted.

Section Save.
Variable pk : Row → option Z.
Variable set_pk : Z → Row → Row.
Variable conflicts : Row → Row → bool.
Hypothesis pk_set_pk : ∀ k r, pk (set_pk k r) = Some k.

Lemma next_id_positive l : 0 < Orm.next_id pk l.
Proof.
  unfold Orm.next_id.
  induction l as [|r l IH]; simpl; [lia|]. destruct (pk r); lia.
Qed.

Lemma next_id_above l r k :
  r ∈ l → pk r = Some k → k < Orm.next_id pk l.
Proof.
  unfold Orm.next_id. intros Hr Hk.
  induction Hr as [r l|r r' l Hr IH]; simpl.
  - rewrite Hk. lia.
  - specialize (IH Hk). destruct (pk r'); lia.
Qed.

Lemma has_pk_next_id l :
  existsb (Orm.has_pk pk (Orm.next_id pk l)) l = false.
Proof.
  apply not_true_is_false. intros (r & Hr & Hk)%existsb_exists.
  unfold Orm.has_pk in Hk. destruct (pk r) as [k|] eqn:Hpk; [|done].
  apply Z.eqb_eq in Hk. apply list_elem_of_In in Hr.
  pose proof (next_id_above _ _ _ Hr Hpk). lia.
Qed.

Lemma get_app_new l r k :
  existsb (Orm.has_pk pk k) l = false → pk r = Some k →
  Orm.get pk k (l ++ [r]) = Some r.
Proof.
  unfold Orm.get. intros Hl Hr. induction l as [|x l IH]; simpl in *.
  - unfold Orm.has_pk. rewrite Hr, Z.eqb_refl. done.
  - apply orb_false_iff in Hl as [-> Hl]. auto.
Qed.

Lemma get_fmap_replace l self k :
  pk self = Some k → existsb (Orm.has_pk pk k) l = true →
  Orm.get pk k ((λ r, if Orm.has_pk pk k r then self else r) <$> l)
  = Some self.
Proof.
  unfold Orm.get. intros Hself Hl. induction l as [|x l IH]; simpl in *.
  - done.
  - destruct (Orm.has_pk pk k x) eqn:Hx; simpl in *.
    + unfold Orm.has_pk at 1. rewrite Hself, Z.eqb_refl. done.
    + rewrite Hx. auto.
Qed.

(** What a successful [save] leaves behind: the row carries a key that
    [bool()] accepts, it is the row found under that key, and it is
    [self] up to a key given by the database. *)
Lemma save_Ok self l self' l' :
  Orm.save pk set_pk conflicts self l = Ok (self', l') →
  (self' = self ∨ self' = set_pk (Orm.next_id pk l) self)
  ∧ truthy_id (pk self') = true
  ∧ ∃ k, pk self' = Some k ∧ Orm.get pk k l' = Some self'.
Proof.
  unfold Orm.save, Orm.same_pk.
  destruct (pk self) as [k|] eqn:Hk.
  - change (λ r, Orm.has_pk pk k r) with (Orm.has_pk pk k).
    destruct (truthy_id (Some k)) eqn:Htr; simpl.
    + destruct (existsb (Orm.has_pk pk k) l) eqn:Hex.
      * destruct (existsb (λ r, negb _ && _) l); [done|].
        intros [= <- <-].
        split; [by left|]. split; [by rewrite Hk|].
        exists k. split; [done|]. by apply get_fmap_replace.
      * destruct (existsb (conflicts self) l); [done|]. intros [= <- <-].
        split; [by left|]. split; [by rewrite Hk|].
        exists k. split; [done|]. by apply get_app_new.
    + destruct (existsb _ l); [done|]. intros [= <- <-].
      split; [by right|]. rewrite pk_set_pk. split.
      * simpl. pose proof (next_id_positive l).
        apply negb_true_iff, Z.eqb_neq. lia.
      * eexists. split; [done|].
        apply get_app_new; [apply has_pk_next_id|apply pk_set_pk].
  - simpl. destruct (existsb _ l); [done|]. intros [= <- <-].
    split; [by right|]. rewrite pk_set_pk. split.
    + simpl. pose proof (next_id_positive l).
      apply negb_true_iff, Z.eqb_neq. lia.
    + eexists. split; [done|].
      apply get_app_new; [apply has_pk_next_id|apply pk_set_pk].
Qed.

(** A row that already carries a key keeps it. *)
Lemma save_Ok_keyed self l self' l' :
  Orm.save pk set_pk conflicts self l = Ok (self', l') →
  truthy_id (pk self) = true → self' = self.
Proof.
  unfold Orm.save. intros Hs Htr. rewrite Htr in Hs. simpl in Hs.
  destruct (existsb (Orm.same_pk pk self) l).
  - destruct (existsb (λ r, negb _ && _) l); [done|]. by inversion Hs.
  - destruct (existsb (conflicts self) l); [done|]. by inversion Hs.
Qed.

(** A new row that collides with a stored one is rejected. *)
Lemma save_conflict self l r :
  truthy_id (pk self) = false → r ∈ l →
  conflicts (set_pk (Orm.next_id pk l) self) r = true →
  Orm.save pk set_pk conflicts self l = Raise IntegrityError.
Proof.
  unfold Orm.save. intros -> Hr Hc. simpl.
  destruct (existsb _ l) eqn:Hex; [done|].
  assert (existsb (conflicts (set_pk (Orm.next_id pk l) self)) l = true)
    as Hex'; [|congruence].
  apply existsb_exists. exists r. by rewrite <- list_elem_of_In.
Qed.

(** A new row that collides with no stored one is appended. *)
Lemma save_insert self l :
  truthy_id (pk self) = false →
  existsb (conflicts (set_pk (Orm.next_id pk l) self)) l = false →
  Orm.save pk set_pk conflicts self l
  = Ok (set_pk (Orm.next_id pk l) self,
        l ++ [set_pk (Orm.next_id pk l) self]).
Proof. unfold Orm.save. intros -> ->. done. Qed.
End Save.
End OrmFacts.

(** ** Comment window *)

(** C2: [comments_open] of an entry or a link is true exactly when
    [enable_comments] is set and the time elapsed since [pub_date] is at
    most the configured number of days; hence it is false once more time
    has elapsed, and false whenever [enable_comments] is off.  The
    moderator registered for both models closes after the same setting. *)
Theorem comments_open_iff (env : Models.Env) (cenv : Coltrane.Env)
    (today : datetime) (e : Models.Entry.t) (l : Models.Link.t) :
  (Models.Entry_comments_open env today e = true ↔
     Models.Entry.enable_comments e = true
     ∧ today - Models.Entry.pub_date e
       ≤ timedelta (COMMENTS_MODERATE_AFTER (Models.settings env)))
  ∧ (Models.Link_comments_open env today l = true ↔
     Models.Link.enable_comments l = true
     ∧ today - Models.Link.pub_date l
       ≤ timedelta (COMMENTS_MODERATE_AFTER (Models.settings env)))
  ∧ (today - Models.Entry.pub_date e
       > timedelta (COMMENTS_MODERATE_AFTER (Models.settings env)) →
     Models.Entry_comments_open env today e = false)
  ∧ (today - Models.Link.pub_date l
       > timedelta (COMMENTS_MODERATE_AFTER (Models.settings env)) →
     Models.Link_comments_open env today l = false)
  ∧ (Models.Entry.enable_comments e = false →
     Models.Entry_comments_open env today e = false)
  ∧ (Models.Link.enable_comments l = false →
     Models.Link_comments_open env today l = false)
  ∧ Coltrane.close_after (Coltrane.ColtraneModerator cenv)
    = COMMENTS_MODERATE_AFTER (Coltrane.settings cenv).
Proof.
  unfold Models.Entry_comments_open, Models.Link_comments_open.
  rewrite !andb_true_iff, !andb_false_iff, !Z.leb_le, !Z.leb_gt.
  repeat split; try tauto; lia.
Qed.

(** ** Status filters *)

Lemma Entry_ordering_total (a b : Models.Entry.t) :
  Models.Entry.ordering a b = true ∨ Models.Entry.ordering b a = true.
Proof. unfold Models.Entry.ordering. rewrite !Z.leb_le. lia. Qed.

Lemma Entry_ordering_trans (a b c : Models.Entry.t) :
  Models.Entry.ordering a b = true → Models.Entry.ordering b c = true →
  Models.Entry.ordering a c = true.
Proof. unfold Models.Entry.ordering. rewrite !Z.leb_le. lia. Qed.

Lemma status_choice_Live (s : Z) :
  (s, "Live"%string) ∈ Models.ENTRY_STATUS_CHOICES ↔ s = 1.
Proof.
  unfold Models.ENTRY_STATUS_CHOICES. rewrite !elem_of_cons, elem_of_nil.
  split; [|intros ->; by left].
  intros [?|[?|[?|[]]]]; congruence.
Qed.

Lemma status_choice_Draft (s : Z) :
  (s, "Draft"%string) ∈ Models.ENTRY_STATUS_CHOICES ↔ s = 2.
Proof.
  unfold Models.ENTRY_STATUS_CHOICES. rewrite !elem_of_cons, elem_of_nil.
  split; [|intros ->; right; by left].
  intros [?|[?|[?|[]]]]; congruence.
Qed.

Lemma elem_of_filter_bool {A} (f : A → bool) (l : list A) (x : A) :
  x ∈ List.filter f l ↔ x ∈ l ∧ f x = true.
Proof. rewrite !list_elem_of_In. apply filter_In. Qed.

Lemma existsb_false_Forall {A} (f : A → bool) (l : list A) :
  existsb f l = false ↔ Forall (λ x, f x = false) l.
Proof.
  induction l as [|x l IH]; simpl.
  - split; [constructor|done].
  - rewrite orb_false_iff, IH, Forall_cons. done.
Qed.

Lemma StronglySorted_weaken {A} (R1 R2 : A → A → Prop) (l : list A) :
  (∀ a b, R1 a b → R2 a b) → StronglySorted R1 l → StronglySorted R2 l.
Proof.
  intros HR. induction 1 as [|x l Hl IH Hx]; constructor; [done|].
  eapply Forall_impl; [exact Hx|]. auto.
Qed.

Lemma elem_of_EntryManager_live (w : Models.World) (e : Models.Entry.t) :
  e ∈ Models.EntryManager_live w ↔
  e ∈ Models.entries w ∧ Models.Entry.status e = 1.
Proof.
  unfold Models.EntryManager_live.
  by rewrite elem_of_order_by, elem_of_filter_bool, Z.eqb_eq.
Qed.

(** C7: [live()] returns exactly the stored entries whose status is Live
    (each as often as it is stored), latest [pub_date] first; [drafts()]
    returns only stored entries whose status is Draft; neither returns an
    entry of another status. *)
Theorem live_drafts_by_status (w : Models.World) :
  Models.EntryManager_live w
    ≡ₚ List.filter (λ e, Models.Entry.status e =? 1) (Models.entries w)
  ∧ (∀ e, e ∈ Models.EntryManager_live w ↔
          e ∈ Models.entries w
          ∧ (Models.Entry.status e, "Live"%string) ∈ Models.ENTRY_STATUS_CHOICES)
  ∧ StronglySorted
      (λ a b, Models.Entry.pub_date b ≤ Models.Entry.pub_date a)
      (Models.EntryManager_live w)
  ∧ (∀ e, e ∈ Models.EntryManager_drafts w ↔
          e ∈ Models.entries w
          ∧ (Models.Entry.status e, "Draft"%string) ∈ Models.ENTRY_STATUS_CHOICES).
Proof.
  unfold Models.EntryManager_live, Models.EntryManager_drafts.
  split; [apply order_by_Permutation|].
  split; [|split].
  - intros e. rewrite elem_of_order_by, elem_of_filter_bool, status_choice_Live.
    by rewrite Z.eqb_eq.
  - eapply StronglySorted_weaken;
      [|apply order_by_StronglySorted;
        [apply Entry_ordering_total|apply Entry_ordering_trans]].
    intros a b. unfold Models.Entry.ordering. apply Z.leb_le.
  - intros e. rewrite elem_of_order_by, elem_of_filter_bool, status_choice_Draft.
    by rewrite Z.eqb_eq.
Qed.

(** ** Saving *)

(** One successful [Entry.save] of [src/models.py]. *)
Lemma Models_Entry_save_Ok (env : Models.Env) (self self' : Models.Entry.t)
    (w w' : Models.World) :
  Models.Entry_save env self w = (Ok self', w') →
  Models.Entry.body self' = Models.Entry.body self
  ∧ Models.Entry.body_html self'
    = Models.apply_markup_filter env (Models.Entry.body self)
  ∧ Models.Entry.excerpt self' = Models.Entry.excerpt self
  ∧ Models.Entry.excerpt_html self'
    = (if truthy_text (Models.Entry.excerpt self)
       then Models.apply_markup_filter env <$> Models.Entry.excerpt self
       else Models.Entry.excerpt_html self)
  ∧ Models.Entry.status self' = Models.Entry.status self
  ∧ (truthy_id (Models.Entry.id self) = true →
     Models.Entry.id self' = Models.Entry.id self)
  ∧ truthy_id (Models.Entry.id self') = true
  ∧ ∃ k, Models.Entry.id self' = Some k
         ∧ Orm.get Models.Entry.id k (Models.entries w') = Some self'.
Proof.
  unfold Models.Entry_save, Models.Entry_super_save, Models.Entry__set_tags,
    mbind, M_bind, bind, mret, M_ret, ret, modify.
  destruct (truthy_text (Models.Entry.excerpt self)) eqn:Hex;
    (destruct (Orm.save _ _ _ _ _) as [[s tbl]|e] eqn:Hsave; [|done]);
    intros [= <- <-]; simpl;
    pose proof (save_Ok Models.Entry.id Models.Entry.set_id
                  Models.Entry.conflicts (λ _ _, eq_refl) _ _ _ _ Hsave)
      as (Hs & Htr & Hget);
    pose proof (save_Ok_keyed _ _ _ _ _ _ _ Hsave) as Hkeep;
    split_and!; try done; try (by destruct Hs as [-> | ->]);
    intros Hid; by rewrite (Hkeep Hid).
Qed.

(** One [Entry.save] of [src/coltrane/models.py]; it cannot fail. *)
Lemma Coltrane_Entry_save_Ok (env : Coltrane.Env) (self : Coltrane.Entry.t)
    (w : Coltrane.World) :
  ∃ self' w',
    Coltrane.Entry_save env self w = (Ok self', w')
    ∧ Coltrane.Entry.body self' = Coltrane.Entry.body self
    ∧ Coltrane.Entry.body_html self'
      = Coltrane.formatter env (Coltrane.Entry.body self)
    ∧ Coltrane.Entry.excerpt self' = Coltrane.Entry.excerpt self
    ∧ Coltrane.Entry.excerpt_html self'
      = (if truthy_text (Coltrane.Entry.excerpt self)
         then Coltrane.formatter env <$> Coltrane.Entry.excerpt self
         else Coltrane.Entry.excerpt_html self)
    ∧ (truthy_id (Coltrane.Entry.id self) = true →
       Coltrane.Entry.id self' = Coltrane.Entry.id self)
    ∧ truthy_id (Coltrane.Entry.id self') = true
    ∧ ∃ k, Coltrane.Entry.id self' = Some k
           ∧ Orm.get Coltrane.Entry.id k (Coltrane.entries w') = Some self'.
Proof.
  unfold Coltrane.Entry_save, Coltrane.Entry_super_save.
  destruct (truthy_text (Coltrane.Entry.excerpt self)) eqn:Hex;
    (destruct (Orm.save _ _ _ _ _) as [[s tbl]|e] eqn:Hsave;
     [exists s, (Coltrane.set_entries tbl w); split; [done|]; simpl;
      pose proof (save_Ok Coltrane.Entry.id Coltrane.Entry.set_id
                    Coltrane.Entry.conflicts (λ _ _, eq_refl) _ _ _ _ Hsave)
        as (Hs & Htr & Hget);
      pose proof (save_Ok_keyed _ _ _ _ _ _ _ Hsave) as Hkeep;
      split_and!; try done; try (by destruct Hs as [-> | ->]);
      intros Hid; by rewrite (Hkeep Hid)
     |]);
    exfalso; revert Hsave; unfold Orm.save, Coltrane.Entry.conflicts;
    (assert (∀ l : list Coltrane.Entry.t, existsb (λ _, false) l = false)
       as Hno by (induction l; auto));
    (assert (∀ (f : Coltrane.Entry.t → bool) (l : list Coltrane.Entry.t),
               existsb (λ r, f r && false) l = false)
       as Hno' by (intros f l; induction l; simpl; rewrite ?andb_false_r;
                   auto));
    rewrite Hno, Hno'; by destruct (_ && _).
Qed.

(** C3: after a successful [Entry.save], the row stored for the entry has
    [body_html] equal to the rendering of its [body]; a later save of the
    same entry with an edited body stores the rendering of the new body
    under the same key.  This holds for both versions of the model; the
    save of [src/coltrane/models.py] always succeeds. *)
Theorem body_html_rendered_on_save (env : Models.Env) (cenv : Coltrane.Env) :
  (∀ self w self1 w1,
     Models.Entry_save env self w = (Ok self1, w1) →
     ∃ k, Models.Entry.id self1 = Some k
       ∧ Orm.get Models.Entry.id k (Models.entries w1) = Some self1
       ∧ Models.Entry.body self1 = Models.Entry.body self
       ∧ Models.Entry.body_html self1
         = Models.apply_markup_filter env (Models.Entry.body self)
       ∧ ∀ b self2 w2,
           Models.Entry_save env (Models.Entry.set_body b self1) w1
           = (Ok self2, w2) →
           Models.Entry.id self2 = Some k
           ∧ Orm.get Models.Entry.id k (Models.entries w2) = Some self2
           ∧ Models.Entry.body self2 = b
           ∧ Models.Entry.body_html self2 = Models.apply_markup_filter env b)
  ∧ (∀ self w, ∃ self1 w1 k,
       Coltrane.Entry_save cenv self w = (Ok self1, w1)
       ∧ Coltrane.Entry.id self1 = Some k
       ∧ Orm.get Coltrane.Entry.id k (Coltrane.entries w1) = Some self1
       ∧ Coltrane.Entry.body self1 = Coltrane.Entry.body self
       ∧ Coltrane.Entry.body_html self1
         = Coltrane.formatter cenv (Coltrane.Entry.body self)
       ∧ ∀ b, ∃ self2 w2,
           Coltrane.Entry_save cenv (Coltrane.Entry.set_body b self1) w1
           = (Ok self2, w2)
           ∧ Coltrane.Entry.id self2 = Some k
           ∧ Orm.get Coltrane.Entry.id k (Coltrane.entries w2) = Some self2
           ∧ Coltrane.Entry.body self2 = b
           ∧ Coltrane.Entry.body_html self2 = Coltrane.formatter cenv b).
Proof.
  split.
  - intros self w self1 w1 H1.
    apply Models_Entry_save_Ok in H1
      as (Hb & Hh & _ & _ & _ & _ & Htr & k & Hk & Hget).
    exists k. split_and!; try done.
    intros b self2 w2 H2.
    apply Models_Entry_save_Ok in H2
      as (Hb2 & Hh2 & _ & _ & _ & Hkeep & _ & k2 & Hk2 & Hget2).
    specialize (Hkeep Htr). simpl in Hkeep.
    assert (k2 = k) as -> by congruence. done.
  - intros self w.
    destruct (Coltrane_Entry_save_Ok cenv self w)
      as (self1 & w1 & H1 & Hb & Hh & _ & _ & _ & Htr & k & Hk & Hget).
    exists self1, w1, k. split_and!; try done.
    intros b.
    destruct (Coltrane_Entry_save_Ok cenv (Coltrane.Entry.set_body b self1) w1)
      as (self2 & w2 & H2 & Hb2 & Hh2 & _ & _ & Hkeep & _ & k2 & Hk2 & Hget2).
    specialize (Hkeep Htr). simpl in Hkeep.
    assert (k2 = k) as -> by congruence.
    exists self2, w2. done.
Qed.

(** C3 on the sample entry: its first save succeeds and gives it a key. *)
Lemma body_html_rendered_on_save_witness :
  ∃ k, Models.Entry.id (Models.Entry.set_id 1
         (Models.Entry.set_body_html "<p>hello</p>"
            (Models.Entry.set_excerpt_html (Some "<p>teaser</p>"%string)
               Samples.entry))) = Some k.
Proof.
  destruct (body_html_rendered_on_save Samples.env Samples.cenv) as [H _].
  destruct (H Samples.entry Samples.empty_world _ _ eq_refl)
    as (k & Hk & _).
  exists k. exact Hk.
Defined.

(** The bookmarking step of [Link.save] always completes, whatever the
    service answers: the call is logged and its outcome dropped. *)
Lemma Coltrane_post_step (env : Coltrane.Env) (c : bool) (p : DeliciousPost)
    (w : Coltrane.World) :
  when c (try_except_pass (Coltrane.pydelicious_add env p)) w
  = (Ok tt, if c then Coltrane.set_delicious (Coltrane.delicious w ++ [p]) w
            else w).
Proof.
  unfold when, try_except_pass, Coltrane.pydelicious_add, ret.
  destruct c; [|done]. by destruct (Coltrane.delicious_accepts env p).
Qed.

Lemma Models_post_step (env : Models.Env) (c : bool) (p : DeliciousPost)
    (w : Models.World) :
  when c (try_except_pass (Models.pydelicious_add env p)) w
  = (Ok tt, if c then Models.set_delicious (Models.delicious w ++ [p]) w
            else w).
Proof.
  unfold when, try_except_pass, Models.pydelicious_add, ret.
  destruct c; [|done]. by destruct (Models.delicious_accepts env p).
Qed.

(** [Link.save] of [src/coltrane/models.py], step by step. *)
Lemma Coltrane_Link_save_unfold (env : Coltrane.Env) (self : Coltrane.Link.t)
    (w : Coltrane.World) :
  Coltrane.Link_save env self w
  = let posted :=
      negb (truthy_id (Coltrane.Link.id self))
      && Coltrane.Link.post_elsewhere self in
    let p := Coltrane.Link_post env self in
    let w1 :=
      if posted
      then Coltrane.set_delicious (Coltrane.delicious w ++ [p]) w else w in
    let self1 :=
      if truthy_text (Coltrane.Link.description self)
      then Coltrane.Link.set_description_html
             (Coltrane.formatter env <$> Coltrane.Link.description self) self
      else self in
    match Orm.save Coltrane.Link.id Coltrane.Link.set_id
            Coltrane.Link.conflicts self1 (Coltrane.links w) with
    | Ok (s, tbl) => (Ok s, Coltrane.set_links tbl w1)
    | Raise e => (Raise e, w1)
    end.
Proof.
  unfold Coltrane.Link_save, mbind, M_bind, bind.
  rewrite Coltrane_post_step. unfold Coltrane.Link_super_save. simpl.
  by destruct (_ && _).
Qed.

(** [Link.save] of [src/models.py], step by step. *)
Lemma Models_Link_save_unfold (env : Models.Env) (self : Models.Link.t)
    (w : Models.World) :
  Models.Link_save env self w
  = let posted :=
      negb (truthy_id (Models.Link.id self))
      && Models.Link.post_elsewhere self in
    let p := Models.Link_post env self in
    let w1 :=
      if posted
      then Models.set_delicious (Models.delicious w ++ [p]) w else w in
    let self1 :=
      Models.Link.set_description_html
        (Models.apply_markup_filter env (Models.Link.description self)) self in
    match Orm.save Models.Link.id Models.Link.set_id
            Models.Link.conflicts self1 (Models.links w) with
    | Ok (s, tbl) =>
        (Ok s,
         Models.set_tagged_items
           (Tagging.update_tags (Models.link_ctype env) (Models.Link.id s)
              (Models.parse_tag_input env (Models.Link.tag_list s))
              (Models.tagged_items w1))
           (Models.set_links tbl w1))
    | Raise e => (Raise e, w1)
    end.
Proof.
  unfold Models.Link_save, mbind, M_bind, bind.
  rewrite Models_post_step.
  unfold Models.Link_super_save, Models.Link__set_tags, modify, mret, M_ret,
    ret.
  simpl. destruct (_ && _); simpl; by destruct (Orm.save _ _ _ _ _) as [[]|].
Qed.

(** ** Rendered columns *)

Example centry_first_save :
  Coltrane.Entry_save Samples.cenv Samples.centry Samples.cempty_world
  = (Ok Samples.centry_saved.1, Samples.centry_saved.2)
  ∧ Coltrane.Entry.excerpt_html Samples.centry_saved.1
    = Some "<p>teaser</p>"%string.
Proof. split; reflexivity. Qed.

Example centry_second_save :
  ∃ self2 w2,
    Coltrane.Entry_save Samples.cenv Samples.centry_emptied
      Samples.centry_saved.2 = (Ok self2, w2)
    ∧ Coltrane.Entry.excerpt self2 = Some ""%string
    ∧ Coltrane.Entry.excerpt_html self2 = Some "<p>teaser</p>"%string
    ∧ Orm.get Coltrane.Entry.id 1 (Coltrane.entries w2) = Some self2.
Proof. do 2 eexists. split; [reflexivity|]. split_and!; reflexivity. Qed.

(** C4, as stated, fails: an entry saved with the excerpt "teaser" and saved
    again after the excerpt was edited to be empty keeps the rendering of
    "teaser" in [excerpt_html]. *)
Lemma excerpt_html_not_mirrored :
  ¬ (∀ (env : Coltrane.Env) self w self' w',
       Coltrane.Entry_save env self w = (Ok self', w') →
       Spec.mirrors (Coltrane.formatter env)
         (Coltrane.Entry.excerpt self') (Coltrane.Entry.excerpt_html self')).
Proof.
  intros H.
  specialize (H Samples.cenv Samples.centry_emptied Samples.centry_saved.2
                _ _ eq_refl).
  destruct H as [H|[_ H]]; vm_compute in H; discriminate.
Qed.

(** One successful [Link.save] of [src/coltrane/models.py]. *)
Lemma Coltrane_Link_save_Ok (env : Coltrane.Env) (self self' : Coltrane.Link.t)
    (w w' : Coltrane.World) :
  Coltrane.Link_save env self w = (Ok self', w') →
  Coltrane.Link.description self' = Coltrane.Link.description self
  ∧ Coltrane.Link.description_html self'
    = (if truthy_text (Coltrane.Link.description self)
       then Coltrane.formatter env <$> Coltrane.Link.description self
       else Coltrane.Link.description_html self)
  ∧ Coltrane.Link.post_elsewhere self' = Coltrane.Link.post_elsewhere self
  ∧ (truthy_id (Coltrane.Link.id self) = true →
     Coltrane.Link.id self' = Coltrane.Link.id self)
  ∧ truthy_id (Coltrane.Link.id self') = true
  ∧ ∃ k, Coltrane.Link.id self' = Some k
         ∧ Orm.get Coltrane.Link.id k (Coltrane.links w') = Some self'.
Proof.
  rewrite Coltrane_Link_save_unfold. cbv zeta.
  destruct (truthy_text (Coltrane.Link.description self)) eqn:Hd;
    (destruct (Orm.save _ _ _ _ _) as [[s tbl]|e] eqn:Hsave; [|done]);
    intros [= <- <-];
    pose proof (save_Ok Coltrane.Link.id Coltrane.Link.set_id
                  Coltrane.Link.conflicts (λ _ _, eq_refl) _ _ _ _ Hsave)
      as (Hs & Htr & Hget);
    pose proof (save_Ok_keyed _ _ _ _ _ _ _ Hsave) as Hkeep;
    split_and!; try done; try (by destruct Hs as [-> | ->]);
    try (intros Hid; by rewrite (Hkeep Hid));
    by destruct (_ && _).
Qed.

(** One successful [Link.save] of [src/models.py]. *)
Lemma Models_Link_save_Ok (env : Models.Env) (self self' : Models.Link.t)
    (w w' : Models.World) :
  Models.Link_save env self w = (Ok self', w') →
  Models.Link.description self' = Models.Link.description self
  ∧ Models.Link.description_html self'
    = Models.apply_markup_filter env (Models.Link.description self)
  ∧ Models.Link.post_elsewhere self' = Models.Link.post_elsewhere self
  ∧ (truthy_id (Models.Link.id self) = true →
     Models.Link.id self' = Models.Link.id self)
  ∧ truthy_id (Models.Link.id self') = true
  ∧ ∃ k, Models.Link.id self' = Some k
         ∧ Orm.get Models.Link.id k (Models.links w') = Some self'.
Proof.
  rewrite Models_Link_save_unfold. cbv zeta.
  destruct (Orm.save _ _ _ _ _) as [[s tbl]|e] eqn:Hsave; [|done].
  intros [= <- <-].
  pose proof (save_Ok Models.Link.id Models.Link.set_id
                Models.Link.conflicts (λ _ _, eq_refl) _ _ _ _ Hsave)
    as (Hs & Htr & Hget).
  pose proof (save_Ok_keyed _ _ _ _ _ _ _ Hsave) as Hkeep.
  split_and!; try done; try (by destruct Hs as [-> | ->]);
    try (intros Hid; by rewrite (Hkeep Hid));
    by destruct (_ && _).
Qed.

(** C4, amended: after a successful save, [excerpt_html] (and, for a link of
    [src/coltrane/models.py], [description_html]) is the rendering of the
    current source column whenever that column is non-empty; when the source
    column is empty or null the save leaves the rendered column as it was.
    [Link.save] of [src/models.py] renders [description] unconditionally. *)
Theorem rendered_columns_after_save (env : Models.Env) (cenv : Coltrane.Env) :
  (∀ self w self' w',
     Coltrane.Entry_save cenv self w = (Ok self', w') →
     Coltrane.Entry.excerpt self' = Coltrane.Entry.excerpt self
     ∧ (truthy_text (Coltrane.Entry.excerpt self) = true →
        Coltrane.Entry.excerpt_html self'
        = Coltrane.formatter cenv <$> Coltrane.Entry.excerpt self)
     ∧ (truthy_text (Coltrane.Entry.excerpt self) = false →
        Coltrane.Entry.excerpt_html self' = Coltrane.Entry.excerpt_html self))
  ∧ (∀ self w self' w',
       Coltrane.Link_save cenv self w = (Ok self', w') →
       Coltrane.Link.description self' = Coltrane.Link.description self
       ∧ (truthy_text (Coltrane.Link.description self) = true →
          Coltrane.Link.description_html self'
          = Coltrane.formatter cenv <$> Coltrane.Link.description self)
       ∧ (truthy_text (Coltrane.Link.description self) = false →
          Coltrane.Link.description_html self'
          = Coltrane.Link.description_html self))
  ∧ (∀ self w self' w',
       Models.Entry_save env self w = (Ok self', w') →
       Models.Entry.excerpt self' = Models.Entry.excerpt self
       ∧ (truthy_text (Models.Entry.excerpt self) = true →
          Models.Entry.excerpt_html self'
          = Models.apply_markup_filter env <$> Models.Entry.excerpt self)
       ∧ (truthy_text (Models.Entry.excerpt self) = false →
          Models.Entry.excerpt_html self' = Models.Entry.excerpt_html self))
  ∧ (∀ self w self' w',
       Models.Link_save env self w = (Ok self', w') →
       Models.Link.description self' = Models.Link.description self
       ∧ Models.Link.description_html self'
         = Models.apply_markup_filter env (Models.Link.description self)).
Proof.
  split_and!.
  - intros self w self' w' H.
    destruct (Coltrane_Entry_save_Ok cenv self w)
      as (s & w1 & H1 & _ & _ & He & Hh & _).
    rewrite H in H1. injection H1 as <- <-.
    split_and!; [done|intros Ht|intros Ht]; by rewrite Hh, Ht.
  - intros self w self' w' (Hd & Hh & _)%Coltrane_Link_save_Ok.
    split_and!; [done|intros Ht|intros Ht]; by rewrite Hh, Ht.
  - intros self w self' w' (_ & _ & He & Hh & _)%Models_Entry_save_Ok.
    split_and!; [done|intros Ht|intros Ht]; by rewrite Hh, Ht.
  - intros self w self' w' (Hd & Hh & _)%Models_Link_save_Ok. done.
Qed.

(** C4, amended, on the sample entry: the first save renders the excerpt
    "teaser"; the save that follows the edit to an empty excerpt keeps that
    rendering. *)
Lemma rendered_columns_after_save_witness :
  Coltrane.Entry.excerpt_html Samples.centry_saved.1
  = Coltrane.formatter Samples.cenv
    <$> Coltrane.Entry.excerpt Samples.centry
  ∧ ∀ self2 w2,
      Coltrane.Entry_save Samples.cenv Samples.centry_emptied
        Samples.centry_saved.2 = (Ok self2, w2) →
      Coltrane.Entry.excerpt_html self2 = Some "<p>teaser</p>"%string.
Proof.
  destruct (rendered_columns_after_save Samples.env Samples.cenv) as [H _].
  split.
  - destruct (H Samples.centry Samples.cempty_world _ _ eq_refl)
      as (_ & Hr & _).
    exact (Hr eq_refl).
  - intros self2 w2 H2. destruct (H _ _ _ _ H2) as (_ & _ & Hk).
    exact (Hk eq_refl).
Defined.

(** ** Posting to the bookmarking service *)

(** What one [Link.save] adds to the log of calls, whether it ends in a
    stored row or in an exception. *)
Lemma Coltrane_Link_save_posts (env : Coltrane.Env) (self : Coltrane.Link.t)
    (w : Coltrane.World) :
  Coltrane.delicious (Coltrane.Link_save env self w).2
  = Coltrane.delicious w
    ++ (if negb (truthy_id (Coltrane.Link.id self))
           && Coltrane.Link.post_elsewhere self
        then [Coltrane.Link_post env self] else []).
Proof.
  rewrite Coltrane_Link_save_unfold. cbv zeta.
  destruct (Orm.save _ _ _ _ _) as [[s tbl]|e]; simpl;
    destruct (_ && _); simpl; by rewrite ?app_nil_r.
Qed.

Lemma Models_Link_save_posts (env : Models.Env) (self : Models.Link.t)
    (w : Models.World) :
  Models.delicious (Models.Link_save env self w).2
  = Models.delicious w
    ++ (if negb (truthy_id (Models.Link.id self))
           && Models.Link.post_elsewhere self
        then [Models.Link_post env self] else []).
Proof.
  rewrite Models_Link_save_unfold. cbv zeta.
  destruct (Orm.save _ _ _ _ _) as [[s tbl]|e]; simpl;
    destruct (_ && _); simpl; by rewrite ?app_nil_r.
Qed.

(** The answer of the service has no part in the outcome of the save. *)
Lemma Coltrane_Link_save_service (accepts : DeliciousPost → bool)
    (env : Coltrane.Env) (self : Coltrane.Link.t) (w : Coltrane.World) :
  Coltrane.Link_save (Coltrane.with_service accepts env) self w
  = Coltrane.Link_save env self w.
Proof. by rewrite !Coltrane_Link_save_unfold. Qed.

Lemma Models_Link_save_service (accepts : DeliciousPost → bool)
    (env : Models.Env) (self : Models.Link.t) (w : Models.World) :
  Models.Link_save (Models.with_service accepts env) self w
  = Models.Link_save env self w.
Proof. by rewrite !Models_Link_save_unfold. Qed.

(** Once the object carries a key, no later save of it posts. *)
Lemma Coltrane_resave_no_post (env : Coltrane.Env)
    (edits : list (Coltrane.Link.t → Coltrane.Link.t)) :
  Forall (λ f, ∀ l, Coltrane.Link.id (f l) = Coltrane.Link.id l) edits →
  ∀ self w,
    truthy_id (Coltrane.Link.id self) = true →
    Coltrane.delicious (Spec.resave env edits self w) = Coltrane.delicious w.
Proof.
  induction 1 as [|f edits Hf _ IH]; intros self w Hid; simpl; [done|].
  assert (truthy_id (Coltrane.Link.id (f self)) = true) as Hid'
    by (by rewrite Hf).
  pose proof (Coltrane_Link_save_posts env (f self) w) as Hp.
  rewrite Hid' in Hp. simpl in Hp. rewrite app_nil_r in Hp.
  destruct (Coltrane.Link_save env (f self) w) as [[s|e] w'] eqn:Hsave;
    simpl in Hp.
  - apply Coltrane_Link_save_Ok in Hsave as (_ & _ & _ & _ & Htr & _).
    by rewrite IH.
  - by rewrite IH.
Qed.

Lemma Models_resave_no_post (env : Models.Env)
    (edits : list (Models.Link.t → Models.Link.t)) :
  Forall (λ f, ∀ l, Models.Link.id (f l) = Models.Link.id l) edits →
  ∀ self w,
    truthy_id (Models.Link.id self) = true →
    Models.delicious (Spec.resave_legacy env edits self w)
    = Models.delicious w.
Proof.
  induction 1 as [|f edits Hf _ IH]; intros self w Hid; simpl; [done|].
  assert (truthy_id (Models.Link.id (f self)) = true) as Hid'
    by (by rewrite Hf).
  pose proof (Models_Link_save_posts env (f self) w) as Hp.
  rewrite Hid' in Hp. simpl in Hp. rewrite app_nil_r in Hp.
  destruct (Models.Link_save env (f self) w) as [[s|e] w'] eqn:Hsave;
    simpl in Hp.
  - apply Models_Link_save_Ok in Hsave as (_ & _ & _ & _ & Htr & _).
    by rewrite IH.
  - by rewrite IH.
Qed.

(** A new link that the database accepts is written, whatever the
    service answers. *)
Lemma Coltrane_Link_save_persists (env : Coltrane.Env)
    (self : Coltrane.Link.t) (w : Coltrane.World) :
  truthy_id (Coltrane.Link.id self) = false →
  (∀ r, r ∈ Coltrane.links w → Coltrane.Link.url r ≠ Coltrane.Link.url self) →
  ∃ self' w' k,
    Coltrane.Link_save env self w = (Ok self', w')
    ∧ Coltrane.Link.id self' = Some k
    ∧ Orm.get Coltrane.Link.id k (Coltrane.links w') = Some self'
    ∧ Coltrane.Link.url self' = Coltrane.Link.url self
    ∧ length (Coltrane.links w') = S (length (Coltrane.links w)).
Proof.
  intros Hid Hurl. rewrite Coltrane_Link_save_unfold. cbv zeta.
  rewrite (save_insert Coltrane.Link.id Coltrane.Link.set_id
             Coltrane.Link.conflicts).
  - do 3 eexists. split; [reflexivity|]. split; [reflexivity|]. split_and!.
    + assert (∀ x l, Coltrane.links (Coltrane.set_links l x) = l) as ->
        by done.
      apply get_app_new; [apply has_pk_next_id|done].
    + by destruct (truthy_text _).
    + assert (∀ x l, Coltrane.links (Coltrane.set_links l x) = l) as ->
        by done.
      rewrite length_app. simpl. lia.
  - by destruct (truthy_text _).
  - apply existsb_false_Forall, Forall_forall. intros r Hr.
    unfold Coltrane.Link.conflicts. apply String.eqb_neq.
    intros Heq. apply (Hurl r Hr). rewrite <- Heq.
    by destruct (truthy_text _).
Qed.

Lemma Models_Link_save_persists (env : Models.Env)
    (self : Models.Link.t) (w : Models.World) :
  truthy_id (Models.Link.id self) = false →
  (∀ r, r ∈ Models.links w →
        Models.Link.url r ≠ Models.Link.url self
        ∧ (Models.Link.slug r ≠ Models.Link.slug self
           ∨ Models.Link.pub_date r ≠ Models.Link.pub_date self)) →
  ∃ self' w' k,
    Models.Link_save env self w = (Ok self', w')
    ∧ Models.Link.id self' = Some k
    ∧ Orm.get Models.Link.id k (Models.links w') = Some self'
    ∧ Models.Link.url self' = Models.Link.url self
    ∧ length (Models.links w') = S (length (Models.links w)).
Proof.
  intros Hid Hfree. rewrite Models_Link_save_unfold. cbv zeta.
  rewrite (save_insert Models.Link.id Models.Link.set_id
             Models.Link.conflicts); [|done|].
  - do 3 eexists. split; [reflexivity|]. split; [reflexivity|].
    assert (∀ x y l, Models.links
                       (Models.set_tagged_items y (Models.set_links l x))
                     = l) as -> by done.
    split_and!.
    + apply get_app_new; [apply has_pk_next_id|done].
    + done.
    + rewrite length_app. simpl. lia.
  - apply existsb_false_Forall, Forall_forall. intros r Hr.
    destruct (Hfree r Hr) as [Hurl Hpair].
    unfold Models.Link.conflicts. simpl. apply orb_false_iff. split.
    + apply String.eqb_neq. congruence.
    + apply andb_false_iff.
      destruct Hpair as [Hslug|Hdate];
        [left; apply String.eqb_neq|right; apply Z.eqb_neq]; congruence.
Qed.

(** A new link that asks to be posted and collides with a stored link on
    its address: the service has been called when the database rejects the
    row, and the object still has no key. *)
Lemma Coltrane_Link_save_rejected_posts (env : Coltrane.Env)
    (self r : Coltrane.Link.t) (w : Coltrane.World) :
  truthy_id (Coltrane.Link.id self) = false →
  Coltrane.Link.post_elsewhere self = true →
  r ∈ Coltrane.links w →
  Coltrane.Link.url r = Coltrane.Link.url self →
  Coltrane.Link_save env self w
  = (Raise IntegrityError,
     Coltrane.set_delicious
       (Coltrane.delicious w ++ [Coltrane.Link_post env self]) w).
Proof.
  intros Hid Hpost Hr Hurl. rewrite Coltrane_Link_save_unfold. cbv zeta.
  rewrite Hid, Hpost. simpl.
  rewrite (save_conflict Coltrane.Link.id Coltrane.Link.set_id
             Coltrane.Link.conflicts _ _ r);
    [done|by destruct (truthy_text _)|done|].
  unfold Coltrane.Link.conflicts.
  destruct (truthy_text _); simpl; by rewrite <- Hurl, String.eqb_refl.
Qed.

Lemma Models_Link_save_rejected_posts (env : Models.Env)
    (self r : Models.Link.t) (w : Models.World) :
  truthy_id (Models.Link.id self) = false →
  Models.Link.post_elsewhere self = true →
  r ∈ Models.links w →
  Models.Link.url r = Models.Link.url self →
  Models.Link_save env self w
  = (Raise IntegrityError,
     Models.set_delicious
       (Models.delicious w ++ [Models.Link_post env self]) w).
Proof.
  intros Hid Hpost Hr Hurl. rewrite Models_Link_save_unfold. cbv zeta.
  rewrite Hid, Hpost. simpl.
  rewrite (save_conflict Models.Link.id Models.Link.set_id
             Models.Link.conflicts _ _ r); [done|done|done|].
  unfold Models.Link.conflicts. simpl. by rewrite <- Hurl, String.eqb_refl.
Qed.

(** A second new link at the address of the stored sample link, asking to
    be posted: each of two attempts to save it calls the service and is
    rejected, so two calls are added to the log for one link. *)
Example post_repeated_on_retry :
  Coltrane.Link.id Samples.clink = None
  ∧ Coltrane.Link_save Samples.cenv Samples.clink Samples.clink_saved.2
    = (Raise IntegrityError,
       Coltrane.set_delicious
         (Coltrane.delicious Samples.clink_saved.2
          ++ [Coltrane.Link_post Samples.cenv Samples.clink])
         Samples.clink_saved.2)
  ∧ length (Coltrane.delicious Samples.clink_saved.2) = 1%nat
  ∧ length (Coltrane.delicious
              (Spec.resave Samples.cenv [λ l, l; λ l, l] Samples.clink
                 Samples.clink_saved.2)) = 3%nat.
Proof. split_and!; reflexivity. Qed.

(** C5, as stated, fails: the call of the service comes before the row is
    written, so a new link that the database rejects (its address is that
    of a stored link) has been posted, still has no key, and is posted
    again when the save is tried again: two calls for one link. *)
Lemma post_not_at_most_once : ¬ Spec.posts_at_most_once_per_link.
Proof.
  intros H.
  specialize (H Samples.cenv [λ l, l; λ l, l] Samples.clink
                Samples.clink_saved.2 eq_refl).
  assert (Forall (λ f : Coltrane.Link.t → Coltrane.Link.t,
                    ∀ l, Coltrane.Link.id (f l) = Coltrane.Link.id l)
            [λ l, l; λ l, l]) as Hedits by (by repeat constructor).
  specialize (H Hedits). vm_compute in H. lia.
Qed.

(** C5, amended: [Link.save] calls the bookmarking service in a save
    exactly when the link has no key yet and [post_elsewhere] is set, once,
    before the row is written.  The answer of the service has no part in
    the outcome of the save: a new link whose address (and, in
    [src/models.py], whose slug and date) collides with no stored link is
    written and found under its new key, whatever the service answers.
    From a save that stored the link on, no later save of it calls the
    service, whatever is edited in between.  A new link that asks to be
    posted and is rejected for its address has been posted all the same.
    Both versions of the model. *)
Theorem bookmark_post_precedes_save (env : Models.Env)
    (cenv : Coltrane.Env) :
  (∀ self w,
     Coltrane.delicious (Coltrane.Link_save cenv self w).2
     = Coltrane.delicious w
       ++ (if negb (truthy_id (Coltrane.Link.id self))
              && Coltrane.Link.post_elsewhere self
           then [Coltrane.Link_post cenv self] else []))
  ∧ (∀ accepts self w,
       Coltrane.Link_save (Coltrane.with_service accepts cenv) self w
       = Coltrane.Link_save cenv self w)
  ∧ (∀ accepts self w,
       truthy_id (Coltrane.Link.id self) = false →
       (∀ r, r ∈ Coltrane.links w →
             Coltrane.Link.url r ≠ Coltrane.Link.url self) →
       ∃ self' w' k,
         Coltrane.Link_save (Coltrane.with_service accepts cenv) self w
         = (Ok self', w')
         ∧ Coltrane.Link.id self' = Some k
         ∧ Orm.get Coltrane.Link.id k (Coltrane.links w') = Some self'
         ∧ Coltrane.Link.url self' = Coltrane.Link.url self
         ∧ length (Coltrane.links w') = S (length (Coltrane.links w)))
  ∧ (∀ self w self' w' edits,
       Coltrane.Link_save cenv self w = (Ok self', w') →
       Forall (λ f, ∀ l, Coltrane.Link.id (f l) = Coltrane.Link.id l) edits →
       (∃ k, Coltrane.Link.id self' = Some k
             ∧ Orm.get Coltrane.Link.id k (Coltrane.links w') = Some self')
       ∧ Coltrane.delicious (Spec.resave cenv edits self' w')
         = Coltrane.delicious w'
       ∧ (length (Coltrane.delicious (Spec.resave cenv edits self' w'))
          ≤ length (Coltrane.delicious w) + 1)%nat)
  ∧ (∀ self r w,
       truthy_id (Coltrane.Link.id self) = false →
       Coltrane.Link.post_elsewhere self = true →
       r ∈ Coltrane.links w →
       Coltrane.Link.url r = Coltrane.Link.url self →
       Coltrane.Link_save cenv self w
       = (Raise IntegrityError,
          Coltrane.set_delicious
            (Coltrane.delicious w ++ [Coltrane.Link_post cenv self]) w))
  ∧ (∀ self w,
       Models.delicious (Models.Link_save env self w).2
       = Models.delicious w
         ++ (if negb (truthy_id (Models.Link.id self))
                && Models.Link.post_elsewhere self
             then [Models.Link_post env self] else []))
  ∧ (∀ accepts self w,
       Models.Link_save (Models.with_service accepts env) self w
       = Models.Link_save env self w)
  ∧ (∀ accepts self w,
       truthy_id (Models.Link.id self) = false →
       (∀ r, r ∈ Models.links w →
             Models.Link.url r ≠ Models.Link.url self
             ∧ (Models.Link.slug r ≠ Models.Link.slug self
                ∨ Models.Link.pub_date r ≠ Models.Link.pub_date self)) →
       ∃ self' w' k,
         Models.Link_save (Models.with_service accepts env) self w
         = (Ok self', w')
         ∧ Models.Link.id self' = Some k
         ∧ Orm.get Models.Link.id k (Models.links w') = Some self'
         ∧ Models.Link.url self' = Models.Link.url self
         ∧ length (Models.links w') = S (length (Models.links w)))
  ∧ (∀ self w self' w' edits,
       Models.Link_save env self w = (Ok self', w') →
       Forall (λ f, ∀ l, Models.Link.id (f l) = Models.Link.id l) edits →
       (∃ k, Models.Link.id self' = Some k
             ∧ Orm.get Models.Link.id k (Models.links w') = Some self')
       ∧ Models.delicious (Spec.resave_legacy env edits self' w')
         = Models.delicious w'
       ∧ (length (Models.delicious (Spec.resave_legacy env edits self' w'))
          ≤ length (Models.delicious w) + 1)%nat)
  ∧ (∀ self r w,
       truthy_id (Models.Link.id self) = false →
       Models.Link.post_elsewhere self = true →
       r ∈ Models.links w →
       Models.Link.url r = Models.Link.url self →
       Models.Link_save env self w
       = (Raise IntegrityError,
          Models.set_delicious
            (Models.delicious w ++ [Models.Link_post env self]) w)).
Proof.
  split_and!.
  - apply Coltrane_Link_save_posts.
  - intros. apply Coltrane_Link_save_service.
  - intros accepts self w. apply Coltrane_Link_save_persists.
  - intros self w self' w' edits Hsave Hedits.
    pose proof (Coltrane_Link_save_posts cenv self w) as Hp.
    rewrite Hsave in Hp. simpl in Hp.
    apply Coltrane_Link_save_Ok in Hsave as (_ & _ & _ & _ & Htr & Hget).
    rewrite (Coltrane_resave_no_post cenv edits Hedits self' w' Htr).
    split_and!; [done..|].
    rewrite Hp, length_app. destruct (_ && _); simpl; lia.
  - apply Coltrane_Link_save_rejected_posts.
  - apply Models_Link_save_posts.
  - intros. apply Models_Link_save_service.
  - intros accepts self w. apply Models_Link_save_persists.
  - intros self w self' w' edits Hsave Hedits.
    pose proof (Models_Link_save_posts env self w) as Hp.
    rewrite Hsave in Hp. simpl in Hp.
    apply Models_Link_save_Ok in Hsave as (_ & _ & _ & _ & Htr & Hget).
    rewrite (Models_resave_no_post env edits Hedits self' w' Htr).
    split_and!; [done..|].
    rewrite Hp, length_app. destruct (_ && _); simpl; lia.
  - apply Models_Link_save_rejected_posts.
Qed.

(** C5, amended, on the sample link, the service refusing every post: the
    link is written into the empty store and found under its key, one call
    was made, and two later edits and saves make no further call. *)
Lemma bookmark_post_precedes_save_witness :
  (∃ self' w' k,
     Coltrane.Link_save
       (Coltrane.with_service (λ _, false) Samples.cenv)
       Samples.clink Samples.cempty_world = (Ok self', w')
     ∧ Coltrane.Link.id self' = Some k
     ∧ Orm.get Coltrane.Link.id k (Coltrane.links w') = Some self'
     ∧ Coltrane.Link.url self' = Coltrane.Link.url Samples.clink
     ∧ length (Coltrane.links w') = 1%nat)
  ∧ Coltrane.delicious Samples.clink_saved.2
    = [Coltrane.Link_post Samples.cenv Samples.clink]
  ∧ Coltrane.delicious
      (Spec.resave Samples.cenv
         [Coltrane.Link.set_description (Some "the prover"%string);
          Coltrane.Link.set_description None]
         Samples.clink_saved.1 Samples.clink_saved.2)
    = Coltrane.delicious Samples.clink_saved.2.
Proof.
  destruct (bookmark_post_precedes_save Samples.env Samples.cenv)
    as (_ & _ & Hpersist & Hlater & _).
  split; [|split; [reflexivity|]].
  - apply (Hpersist (λ _, false) Samples.clink Samples.cempty_world).
    + reflexivity.
    + intros r Hr. by apply elem_of_nil in Hr.
  - destruct (Hlater Samples.clink Samples.cempty_world Samples.clink_saved.1
                Samples.clink_saved.2
                [Coltrane.Link.set_description (Some "the prover"%string);
                 Coltrane.Link.set_description None]
                eq_refl) as (_ & Hlog & _); [by repeat constructor|].
    exact Hlog.
Defined.

(** ** Uniqueness *)

Example link_first_save :
  Models.Link_save Samples.env Samples.link Samples.empty_world
  = (Ok Samples.link_saved.1, Samples.link_saved.2)
  ∧ Models.links Samples.link_saved.2 = [Samples.link_saved.1].
Proof. split; reflexivity. Qed.

(** Same slug, same day, another time of day: the second save succeeds and
    both rows are stored. *)
Example link_same_day_saved :
  ∃ self' w',
    Models.Link_save Samples.env Samples.link_same_day Samples.link_saved.2
    = (Ok self', w')
    ∧ Models.links w' = [Samples.link_saved.1; self']
    ∧ Models.Link.slug self' = Models.Link.slug Samples.link_saved.1
    ∧ date_of (Models.Link.pub_date self')
      = date_of (Models.Link.pub_date Samples.link_saved.1).
Proof.
  do 2 eexists. split; [vm_compute; reflexivity|].
  split_and!; reflexivity.
Qed.

(** [src/coltrane/models.py]: same slug and the very same [pub_date]; the
    save does not look at [unique_for_date] and succeeds. *)
Example clink_same_slug_saved :
  ∃ self' w',
    Coltrane.Link_save Samples.cenv Samples.clink_same_slug
      Samples.clink_saved.2 = (Ok self', w')
    ∧ Coltrane.links w' = [Samples.clink_saved.1; self']
    ∧ Coltrane.Link.slug self' = Coltrane.Link.slug Samples.clink_saved.1
    ∧ Coltrane.Link.pub_date self'
      = Coltrane.Link.pub_date Samples.clink_saved.1.
Proof.
  do 2 eexists. split; [vm_compute; reflexivity|].
  split_and!; reflexivity.
Qed.







(** ** Tags *)

Lemma filter_bool_none {A} (f : A → bool) (l : list A) :
  List.filter f (List.filter (λ x, negb (f x)) l) = [].
Proof.
  induction l as [|x l IH]; simpl; [done|].
  destruct (f x) eqn:Hx; simpl; [done|]. by rewrite Hx.
Qed.

Lemma filter_bool_all {A} (f : A → bool) (l : list A) :
  Forall (λ x, f x = true) l → List.filter f l = l.
Proof. induction 1 as [|x l Hx _ IH]; simpl; [done|]. by rewrite Hx, IH. Qed.

Lemma of_object_refl (ctype : Z) (oid : option Z) (label : string) :
  Tagging.of_object ctype oid
    {| Tagging.tag := label; Tagging.content_type := ctype;
       Tagging.object_id := oid |} = true.
Proof. unfold Tagging.of_object. simpl. by rewrite !bool_decide_eq_true_2. Qed.

(** After [update_tags] the entity has the given labels and no other. *)
Lemma get_for_object_update_tags (ctype : Z) (oid : option Z)
    (labels : list string) (store : list Tagging.TaggedItem) :
  Tagging.get_for_object ctype oid
    (Tagging.update_tags ctype oid labels store)
  = list_to_set labels.
Proof.
  unfold Tagging.get_for_object, Tagging.update_tags.
  rewrite List.filter_app, filter_bool_none. simpl.
  rewrite filter_bool_all.
  - by rewrite <- list_fmap_compose, list_fmap_id.
  - apply Forall_fmap, Forall_forall. intros label _. apply of_object_refl.
Qed.

(** The labels of every other entity stay as they were. *)
Lemma get_for_object_update_tags_other (ctype ctype' : Z)
    (oid oid' : option Z) (labels : list string)
    (store : list Tagging.TaggedItem) :
  (ctype', oid') ≠ (ctype, oid) →
  Tagging.get_for_object ctype' oid'
    (Tagging.update_tags ctype oid labels store)
  = Tagging.get_for_object ctype' oid' store.
Proof.
  intros Hne. unfold Tagging.get_for_object, Tagging.update_tags.
  rewrite List.filter_app.
  assert (List.filter (Tagging.of_object ctype' oid')
            ((λ l, {| Tagging.tag := l; Tagging.content_type := ctype;
                      Tagging.object_id := oid |}) <$> labels) = []) as ->.
  { induction labels as [|l labels IH]; simpl; [done|].
    unfold Tagging.of_object at 1. simpl.
    destruct (bool_decide (ctype = ctype')) eqn:Hc; simpl; [|done].
    destruct (bool_decide (oid = oid')) eqn:Ho; simpl; [|done].
    apply bool_decide_eq_true in Hc, Ho. congruence. }
  rewrite app_nil_r. f_equal. f_equal.
  induction store as [|it store IH]; simpl; [done|].
  destruct (Tagging.of_object ctype oid it) eqn:Hit; simpl.
  - assert (Tagging.of_object ctype' oid' it = false) as ->; [|done].
    unfold Tagging.of_object in *.
    apply andb_true_iff in Hit as [Hc%bool_decide_eq_true Ho%bool_decide_eq_true].
    apply andb_false_iff.
    destruct (decide (ctype' = ctype)) as [->|];
      [right|left]; apply bool_decide_eq_false; congruence.
  - destruct (Tagging.of_object ctype' oid' it); by rewrite IH.
Qed.

(** C9: setting the tags of an entry (or a link) a second time replaces the
    first set: afterwards the entity has exactly the labels of the last
    write, so ["a","b"] followed by ["c"] leaves the single label "c". *)
Theorem set_tags_replaces (env : Models.Env) (e : Models.Entry.t)
    (l : Models.Link.t) (w : Models.World) (t1 t2 : option string) :
  Models.Entry__get_tags env e
    (Models.Entry__set_tags env e t2 (Models.Entry__set_tags env e t1 w).2).2
  = list_to_set (Models.parse_tag_input env t2)
  ∧ Models.Link__get_tags env l
      (Models.Link__set_tags env l t2 (Models.Link__set_tags env l t1 w).2).2
    = list_to_set (Models.parse_tag_input env t2)
  ∧ Tagging.get_for_object (Models.entry_ctype env) (Models.Entry.id e)
      (Tagging.update_tags (Models.entry_ctype env) (Models.Entry.id e)
         ["c"%string]
         (Tagging.update_tags (Models.entry_ctype env) (Models.Entry.id e)
            ["a"%string; "b"%string] (Models.tagged_items w)))
    = {["c"%string]}.
Proof.
  unfold Models.Entry__get_tags, Models.Entry__set_tags,
    Models.Link__get_tags, Models.Link__set_tags, modify. simpl.
  rewrite !get_for_object_update_tags. split_and!; [done..|].
  simpl. by rewrite union_empty_r_L.
Qed.

(** ** Default status *)

Lemma get_Some_elem_of {Row} (pk : Row → option Z) (k : Z) (l : list Row)
    (r : Row) :
  Orm.get pk k l = Some r → r ∈ l.
Proof.
  unfold Orm.get. intros [H _]%find_some. by apply list_elem_of_In.
Qed.

(** C10: an entry built without a status has the Live status, in both
    versions of the model, and once saved it is among the entries that
    [live()] returns; built with another status (Draft, Hidden) and saved,
    it is not. *)
Theorem default_status_is_live (env : Models.Env) (cenv : Coltrane.Env)
    (today : datetime) (author : Z) (enable_comments featured : option bool)
    (pub_date : option datetime) (slug title body : string)
    (excerpt tag_list : option string) (tags : string) :
  (Models.Entry.status
     (Models.Entry_init today author enable_comments pub_date slug title
        None body excerpt tag_list), "Live"%string)
    ∈ Models.ENTRY_STATUS_CHOICES
  ∧ Coltrane.Entry.status
      (Coltrane.Entry_init today author enable_comments featured pub_date
         slug None title body excerpt tags)
    = Coltrane.Entry.LIVE_STATUS
  ∧ (∀ w self' w',
       Models.Entry_save env
         (Models.Entry_init today author enable_comments pub_date slug title
            None body excerpt tag_list) w = (Ok self', w') →
       self' ∈ Models.EntryManager_live w')
  ∧ (∀ status w self' w',
       status ≠ 1 →
       Models.Entry_save env
         (Models.Entry_init today author enable_comments pub_date slug title
            (Some status) body excerpt tag_list) w = (Ok self', w') →
       self' ∉ Models.EntryManager_live w').
Proof.
  split_and!.
  - by apply status_choice_Live.
  - done.
  - intros w self' w' (_ & _ & _ & _ & Hst & _ & _ & k & _ & Hget)%Models_Entry_save_Ok.
    apply (elem_of_EntryManager_live w'). split.
    + by eapply get_Some_elem_of.
    + by rewrite Hst.
  - intros status w self' w' Hne
      (_ & _ & _ & _ & Hst & _)%Models_Entry_save_Ok Hin.
    apply (elem_of_EntryManager_live w') in Hin as [_ Hlive].
    rewrite Hst in Hlive. simpl in Hlive. done.
Qed.

(** C10 on the sample entry, built without a status: it is saved and
    [live()] returns it. *)
Lemma default_status_is_live_witness :
  Models.Entry_save Samples.env Samples.entry Samples.empty_world
  = (Ok Samples.entry_saved.1, Samples.entry_saved.2)
  ∧ Samples.entry_saved.1 ∈ Models.EntryManager_live Samples.entry_saved.2.
Proof.
  split; [reflexivity|].
  destruct (default_status_is_live Samples.env Samples.cenv 0 1 None None
              None "first" "First" "hello" (Some "teaser"%string) None "")
    as (_ & _ & H & _).
  exact (H Samples.empty_world _ _ eq_refl).
Defined.

(** ** Neighbouring live entries *)

Lemma by_pub_date_total (a b : Coltrane.Entry.t) :
  Coltrane.by_pub_date a b = true ∨ Coltrane.by_pub_date b a = true.
Proof.
  unfold Coltrane.by_pub_date, Coltrane.pk_le.
  destruct (Coltrane.Entry.id a) as [x|], (Coltrane.Entry.id b) as [y|];
    rewrite !orb_true_iff, !andb_true_iff, !Z.ltb_lt, !Z.eqb_eq,
      ?Z.leb_le; lia.
Qed.

Lemma by_pub_date_trans (a b c : Coltrane.Entry.t) :
  Coltrane.by_pub_date a b = true → Coltrane.by_pub_date b c = true →
  Coltrane.by_pub_date a c = true.
Proof.
  unfold Coltrane.by_pub_date, Coltrane.pk_le.
  destruct (Coltrane.Entry.id a) as [x|], (Coltrane.Entry.id b) as [y|],
    (Coltrane.Entry.id c) as [z|];
    rewrite !orb_true_iff, !andb_true_iff, !Z.ltb_lt, !Z.eqb_eq,
      ?Z.leb_le; try lia;
    intuition (try discriminate; try lia).
Qed.

(** What [get_next_by_pub_date] and [get_previous_by_pub_date] return: a
    stored row that passes the filter and lies beyond [self], the nearest
    such row; [DoesNotExist] exactly when no stored row qualifies. *)
Lemma get_next_or_previous_spec (is_next : bool) (self : Coltrane.Entry.t)
    (kwargs : Coltrane.Entry.t → bool) (tbl : list Coltrane.Entry.t) :
  match Coltrane.get_next_or_previous_by_pub_date is_next self kwargs tbl with
  | Ok r =>
      r ∈ tbl ∧ kwargs r = true ∧ Coltrane.beyond is_next self r = true
      ∧ ∀ r', r' ∈ tbl → kwargs r' = true →
              Coltrane.beyond is_next self r' = true →
              (if is_next then Coltrane.by_pub_date r r'
               else Coltrane.by_pub_date r' r) = true
  | Raise e =>
      e = DoesNotExist
      ∧ ∀ r', r' ∈ tbl → kwargs r' = true →
              Coltrane.beyond is_next self r' = false
  end.
Proof.
  unfold Coltrane.get_next_or_previous_by_pub_date.
  set (order := λ a b : Coltrane.Entry.t,
         if is_next then Coltrane.by_pub_date a b
         else Coltrane.by_pub_date b a).
  set (rows := List.filter (Coltrane.beyond is_next self)
                 (List.filter kwargs tbl)).
  assert (∀ a b, order a b = true ∨ order b a = true) as Htotal.
  { intros a b. unfold order. destruct is_next; apply by_pub_date_total. }
  assert (∀ a b c, order a b = true → order b c = true → order a c = true)
    as Htrans.
  { intros a b c. unfold order. destruct is_next; [apply by_pub_date_trans|].
    intros ? ?. by eapply by_pub_date_trans. }
  destruct (Orm.order_by order rows) as [|r rest] eqn:Hsorted; simpl.
  - split; [done|]. intros r' Hin Hk.
    apply not_true_is_false. intros Hb.
    assert (r' ∈ rows) as Hr'
      by (unfold rows; by rewrite !elem_of_filter_bool).
    rewrite <- (elem_of_order_by order), Hsorted in Hr'.
    by apply elem_of_nil in Hr'.
  - destruct (order_by_head order Htotal Htrans rows r rest Hsorted)
      as [Hin Hmin].
    unfold rows in Hin. rewrite !elem_of_filter_bool in Hin.
    destruct Hin as [[Hin Hk] Hb]. split_and!; try done.
    intros r' Hin' Hk' Hb'. apply (Hmin r').
    unfold rows. by rewrite !elem_of_filter_bool.
Qed.

(** The example of the specification: entries at t1 (Live), t2 (Hidden) and
    t3 (Live); the next entry of t1 is t3 and the previous entry of t3 is
    t1, the hidden entry is passed over. *)
Example get_next_skips_hidden :
  Coltrane.Entry_get_next Samples.t1 Samples.three_entries = Ok Samples.t3
  ∧ Coltrane.Entry_get_previous Samples.t3 Samples.three_entries
    = Ok Samples.t1.
Proof. split; reflexivity. Qed.

(** [get_next] returns the nearest later live entry whenever one is stored,
    and [get_previous] the nearest earlier one. *)
Lemma get_next_previous_live (self : Coltrane.Entry.t) (w : Coltrane.World) :
  (∀ r, Coltrane.Entry_get_next self w = Ok r →
        r ∈ Coltrane.entries w
        ∧ Coltrane.Entry.status r = Coltrane.Entry.LIVE_STATUS
        ∧ Coltrane.beyond true self r = true
        ∧ ∀ r', r' ∈ Coltrane.entries w →
                Coltrane.Entry.status r' = Coltrane.Entry.LIVE_STATUS →
                Coltrane.beyond true self r' = true →
                Coltrane.by_pub_date r r' = true)
  ∧ (∀ r, Coltrane.Entry_get_previous self w = Ok r →
          r ∈ Coltrane.entries w
          ∧ Coltrane.Entry.status r = Coltrane.Entry.LIVE_STATUS
          ∧ Coltrane.beyond false self r = true
          ∧ ∀ r', r' ∈ Coltrane.entries w →
                  Coltrane.Entry.status r' = Coltrane.Entry.LIVE_STATUS →
                  Coltrane.beyond false self r' = true →
                  Coltrane.by_pub_date r' r = true)
  ∧ (∀ r', r' ∈ Coltrane.entries w →
           Coltrane.Entry.status r' = Coltrane.Entry.LIVE_STATUS →
           Coltrane.beyond true self r' = true →
           ∃ r, Coltrane.Entry_get_next self w = Ok r)
  ∧ (∀ r', r' ∈ Coltrane.entries w →
           Coltrane.Entry.status r' = Coltrane.Entry.LIVE_STATUS →
           Coltrane.beyond false self r' = true →
           ∃ r, Coltrane.Entry_get_previous self w = Ok r).
Proof.
  unfold Coltrane.Entry_get_next, Coltrane.Entry_get_previous,
    Coltrane.Entry__next_previous_helper. simpl.
  pose proof (get_next_or_previous_spec true self
                (λ e, Coltrane.Entry.status e =? Coltrane.Entry.LIVE_STATUS)
                (Coltrane.entries w)) as Hn.
  pose proof (get_next_or_previous_spec false self
                (λ e, Coltrane.Entry.status e =? Coltrane.Entry.LIVE_STATUS)
                (Coltrane.entries w)) as Hp.
  simpl in Hn, Hp.
  split_and!.
  - intros r Hr. rewrite Hr in Hn. destruct Hn as (? & ?%Z.eqb_eq & ? & Hmin).
    split_and!; try done. intros r' ? ?%Z.eqb_eq ?. by apply Hmin.
  - intros r Hr. rewrite Hr in Hp. destruct Hp as (? & ?%Z.eqb_eq & ? & Hmin).
    split_and!; try done. intros r' ? ?%Z.eqb_eq ?. by apply Hmin.
  - intros r' Hin Hlive%Z.eqb_eq Hb.
    destruct (Coltrane.get_next_or_previous_by_pub_date true _ _ _)
      as [r|e]; [by exists r|].
    destruct Hn as [_ Hnone]. rewrite (Hnone r' Hin Hlive) in Hb. done.
  - intros r' Hin Hlive%Z.eqb_eq Hb.
    destruct (Coltrane.get_next_or_previous_by_pub_date false _ _ _)
      as [r|e]; [by exists r|].
    destruct Hp as [_ Hnone]. rewrite (Hnone r' Hin Hlive) in Hb. done.
Qed.

(** C6 at the last entry: with no later live entry stored, [get_next] does
    not return: it raises [DoesNotExist]; likewise [get_previous] at the
    first entry. *)
Theorem get_next_raises_at_the_end :
  Coltrane.Entry_get_next Samples.t3 Samples.three_entries
  = Raise DoesNotExist
  ∧ Coltrane.Entry_get_previous Samples.t1 Samples.three_entries
    = Raise DoesNotExist.
Proof. split; reflexivity. Qed.

(** ** Most commented entries *)

(** The example of the specification: public comment counts A:5, B:1, C:3;
    the two most commented entries are A and C, in that order. *)
Example most_commented_A_C :
  Models.ranking_query (Models.free_comments Samples.commented_world)
    (Models.entry_ctype Samples.env) = [(1, 5); (3, 3); (2, 1)]
  ∧ Models.EntryManager_most_commented Samples.env 2 true
      Samples.commented_world = Ok [Samples.entry_A; Samples.entry_C]
  ∧ Models.EntryManager_most_commented Samples.env 5 true
      Samples.commented_world
    = Ok [Samples.entry_A; Samples.entry_C; Samples.entry_B].
Proof. split_and!; vm_compute; reflexivity. Qed.

(** C1 on a store that holds comments of a deleted entry: the query still
    ranks the key of the deleted entry, the lookup of that key in the dict
    of [in_bulk] fails, and [most_commented] raises [KeyError] instead of
    returning the most commented entries. *)
Theorem most_commented_raises_KeyError :
  Models.ranking_query (Models.free_comments Samples.world_after_delete)
    (Models.entry_ctype Samples.env) = [(1, 5); (3, 3); (2, 1)]
  ∧ Models.EntryManager_most_commented Samples.env 2 true
      Samples.world_after_delete = Raise (KeyError 3)
  ∧ Models.EntryManager_most_commented Samples.env 1 true
      Samples.world_after_delete = Ok [Samples.entry_A].
Proof. split_and!; vm_compute; reflexivity. Qed.

Lemma filter_bool_filter {A} (f g : A → bool) (l : list A) :
  List.filter g (List.filter f l) = List.filter (λ x, f x && g x) l.
Proof.
  induction l as [|x l IH]; simpl; [done|].
  destruct (f x); simpl; [|done]. destruct (g x); by rewrite IH.
Qed.

Lemma length_filter_bool_pos {A} (f : A → bool) (l : list A) :
  (0 < length (List.filter f l))%nat ↔ ∃ x, x ∈ l ∧ f x = true.
Proof.
  split.
  - destruct (List.filter f l) as [|x l'] eqn:Hf; simpl; [lia|]. intros _.
    exists x. apply elem_of_filter_bool. rewrite Hf. by left.
  - intros (x & Hx & Hfx).
    assert (x ∈ List.filter f l) as Hin by (by apply elem_of_filter_bool).
    destruct (List.filter f l); [by apply elem_of_nil in Hin|simpl; lia].
Qed.

(** The ranking query: one row per entity with a public comment, carrying
    its number of public comments, highest number first. *)
Lemma ranking_query_spec (table : list CommentRow) (ctype : Z) :
  StronglySorted (λ a b : Z * Z, b.2 ≤ a.2) (Models.ranking_query table ctype)
  ∧ NoDup ((Models.ranking_query table ctype).*1)
  ∧ ∀ k n, (k, n) ∈ Models.ranking_query table ctype ↔
           0 < n ∧ n = Spec.public_count table ctype k.
Proof.
  unfold Models.ranking_query.
  set (rows := List.filter (λ c, (content_type_id c =? ctype) && is_public c)
                 table).
  set (score := λ i,
         Z.of_nat (length (List.filter (λ c, object_id c =? i) rows))).
  assert (∀ i, score i = Spec.public_count table ctype i) as Hscore.
  { intros i. unfold score, rows, Spec.public_count.
    by rewrite filter_bool_filter. }
  assert (∀ i, i ∈ object_id <$> rows ↔ 0 < score i) as Hpos.
  { intros i. unfold score. rewrite <- Nat2Z.inj_0, <- Nat2Z.inj_lt.
    rewrite length_filter_bool_pos, list_elem_of_fmap.
    split.
    - intros (c & -> & Hc). exists c. by rewrite Z.eqb_refl.
    - intros (c & Hc & Heq%Z.eqb_eq). by exists c. }
  split_and!.
  - eapply StronglySorted_weaken;
      [|apply (order_by_StronglySorted (λ a b : Z * Z, b.2 <=? a.2))].
    + intros a b. apply Z.leb_le.
    + intros a b. rewrite !Z.leb_le. lia.
    + intros a b c. rewrite !Z.leb_le. lia.
  - rewrite order_by_Permutation, <- list_fmap_compose.
    rewrite (list_fmap_ext _ id); [|done]. rewrite list_fmap_id.
    apply NoDup_remove_dups.
  - intros k n. rewrite elem_of_order_by, list_elem_of_fmap.
    setoid_rewrite elem_of_remove_dups. split.
    + intros (i & [= -> ->] & Hi). split; [by apply Hpos|apply Hscore].
    + intros [Hn ->]. exists k. rewrite <- Hscore. split; [done|].
      apply Hpos. by rewrite Hscore.
Qed.

Lemma in_bulk_lookup_Some (ids : list Z) (tbl : list Models.Entry.t) (k : Z)
    (e : Models.Entry.t) :
  Models.in_bulk ids tbl !! k = Some e →
  e ∈ tbl ∧ Models.Entry.id e = Some k ∧ k ∈ ids.
Proof.
  unfold Models.in_bulk. intros Hin%elem_of_list_to_map_2.
  apply elem_of_reverse, list_elem_of_omap in Hin as (x & Hx & Hf).
  destruct (Models.Entry.id x) as [k'|] eqn:Hid; [|done].
  case_bool_decide; [|done]. by injection Hf as -> ->.
Qed.

Lemma in_bulk_lookup_is_Some (ids : list Z) (tbl : list Models.Entry.t)
    (k : Z) (e : Models.Entry.t) :
  k ∈ ids → e ∈ tbl → Models.Entry.id e = Some k →
  is_Some (Models.in_bulk ids tbl !! k).
Proof.
  intros Hk He Hid. unfold Models.in_bulk.
  apply not_eq_None_Some. rewrite <- not_elem_of_list_to_map. intros Hnot.
  apply Hnot. apply list_elem_of_fmap. exists (k, e). split; [done|].
  apply elem_of_reverse, list_elem_of_omap. exists e. split; [done|].
  rewrite Hid. by rewrite bool_decide_eq_true_2.
Qed.

Lemma Forall2_impl_elem_of {A B} (P Q : A → B → Prop) (l : list A)
    (k : list B) :
  Forall2 P l k → (∀ x y, x ∈ l → P x y → Q x y) → Forall2 Q l k.
Proof.
  induction 1 as [|x y l k Hxy _ IH]; intros HPQ; constructor.
  - apply HPQ; [by left|done].
  - apply IH. intros x' y' Hx'. apply HPQ. by right.
Qed.

Lemma comprehension_Ok {A B} (f : A → result B) (l : list A) :
  Forall (λ x, ∃ y, f x = Ok y) l →
  ∃ ys, Models.comprehension f l = Ok ys ∧ Forall2 (λ x y, f x = Ok y) l ys.
Proof.
  induction 1 as [|x l [y Hy] _ (ys & Hys & Hall)]; simpl.
  - exists []. by split.
  - exists (y :: ys). rewrite Hy, Hys. split; [done|]. by constructor.
Qed.

(** On a comment store whose ranked comments all point at stored entries,
    [most_commented(num)] with [num >= 0] returns the stored entries of the
    first [num] rows of the ranking, in the order of the ranking. *)
Lemma most_commented_ranked (env : Models.Env) (num : Z) (free : bool)
    (w : Models.World) :
  0 ≤ num →
  (∀ c, c ∈ (if free then Models.free_comments w else Models.comments w) →
        content_type_id c = Models.entry_ctype env → is_public c = true →
        ∃ e, e ∈ Models.entries w ∧ Models.Entry.id e = Some (object_id c)) →
  ∃ l, Models.EntryManager_most_commented env num free w = Ok l
       ∧ Forall2
           (λ (row : Z * Z) e,
              e ∈ Models.entries w ∧ Models.Entry.id e = Some row.1
              ∧ row.2 = Spec.public_count
                          (if free then Models.free_comments w
                           else Models.comments w)
                          (Models.entry_ctype env) row.1)
           (take (Z.to_nat num)
              (Models.ranking_query
                 (if free then Models.free_comments w else Models.comments w)
                 (Models.entry_ctype env)))
           l
       ∧ (length l ≤ Z.to_nat num)%nat.
Proof.
  intros Hnum Hstored. unfold Models.EntryManager_most_commented.
  set (table := if free then Models.free_comments w else Models.comments w)
    in *.
  set (ranking := Models.ranking_query table (Models.entry_ctype env)).
  destruct (ranking_query_spec table (Models.entry_ctype env))
    as (_ & _ & Hrows). fold ranking in Hrows.
  unfold slice_to. destruct (num <? 0) eqn:Hneg; [apply Z.ltb_lt in Hneg; lia|].
  set (top := take (Z.to_nat num) ranking).
  set (ids := top.*1).
  assert (∀ row, row ∈ top →
            row.2 = Spec.public_count table (Models.entry_ctype env) row.1
            ∧ ∃ e, e ∈ Models.entries w ∧ Models.Entry.id e = Some row.1)
    as Htop.
  { intros [k n] Hin. simpl.
    assert ((k, n) ∈ ranking) as Hr.
    { apply elem_of_take in Hin as (i & Hi & _).
      by eapply list_elem_of_lookup_2. }
    apply Hrows in Hr as [Hpos ->]. split; [done|].
    unfold Spec.public_count in Hpos.
    rewrite <- Nat2Z.inj_0, <- Nat2Z.inj_lt, length_filter_bool_pos in Hpos.
    destruct Hpos as (c & Hc & [[Hct%Z.eqb_eq Hpub]%andb_true_iff
                                  Hk%Z.eqb_eq]%andb_true_iff).
    destruct (Hstored c Hc Hct Hpub) as (e & He & Hid).
    exists e. by rewrite <- Hk. }
  destruct (comprehension_Ok
              (Models.getitem (Models.in_bulk ids (Models.entries w))) ids)
    as (l & Hl & Hall).
  { apply Forall_forall. intros k Hk.
    apply list_elem_of_fmap in Hk as (row & -> & Hrow).
    destruct (Htop row Hrow) as (_ & e & He & Hid).
    destruct (in_bulk_lookup_is_Some ids (Models.entries w) row.1 e)
      as [e' He']; [by apply list_elem_of_fmap_2|done|done|].
    exists e'. unfold Models.getitem. by rewrite He'. }
  exists l. split; [exact Hl|]. split.
  - unfold ids in Hall. apply Forall2_fmap_l in Hall.
    eapply Forall2_impl_elem_of; [exact Hall|].
    intros row e Hrow Hget. simpl in Hget.
    unfold Models.getitem in Hget.
    destruct (Models.in_bulk _ _ !! row.1) as [e'|] eqn:He'; [|done].
    injection Hget as ->.
    apply in_bulk_lookup_Some in He' as (? & ? & _).
    split_and!; [done..|]. by apply Htop.
  - apply Forall2_length in Hall. rewrite <- Hall. unfold ids, top.
    rewrite length_fmap, length_take. lia.
Qed.

(** On the sample store (A:5, B:1, C:3), whose comments all point at stored
    entries: [most_commented(2)] succeeds with at most two entries. *)
Lemma most_commented_ranked_sample :
  ∃ l, Models.EntryManager_most_commented Samples.env 2 true
         Samples.commented_world = Ok l
       ∧ (length l ≤ 2)%nat.
Proof.
  destruct (most_commented_ranked Samples.env 2 true Samples.commented_world)
    as (l & Hl & _ & Hlen); [lia| |by exists l].
  refine (proj1 (Forall_forall
            (λ c, content_type_id c = _ → is_public c = true →
                  ∃ e, e ∈ _ ∧ Models.Entry.id e = Some (object_id c)) _) _).
  simpl.
  repeat constructor; intros Hct Hpub; try discriminate;
    first [ exists Samples.entry_A; split; [|reflexivity]
          | exists Samples.entry_B; split; [|reflexivity]
          | exists Samples.entry_C; split; [|reflexivity] ];
    rewrite !elem_of_cons; tauto.
Defined.

(** The ranking, as [most_commented] uses it: rows in descending order of
    their count, one row for each entry key that has a public comment of
    the entry content type, the count being the number of those comments;
    keys without such a comment have no row. *)
Theorem ranking_query_ranks_public_counts (table : list CommentRow)
    (ctype : Z) :
  StronglySorted (λ a b : Z * Z, b.2 ≤ a.2) (Models.ranking_query table ctype)
  ∧ NoDup ((Models.ranking_query table ctype).*1)
  ∧ ∀ k n, (k, n) ∈ Models.ranking_query table ctype ↔
           0 < n ∧ n = Spec.public_count table ctype k.
Proof. apply ranking_query_spec. Qed.

Lemma elem_of_slice_to {A} (num : Z) (l : list A) (x : A) :
  x ∈ slice_to num l → x ∈ l.
Proof. unfold slice_to. destruct (num <? 0); apply subseteq_take. Qed.

Lemma length_slice_to {A} (num : Z) (l : list A) :
  length (slice_to num l)
  = if num <? 0 then (length l - Z.to_nat (- num))%nat
    else Nat.min (Z.to_nat num) (length l).
Proof. unfold slice_to. destruct (num <? 0); rewrite length_take; lia. Qed.

(** [most_commented] for any [num], on a store whose ranked comments point
    at stored entries: the entries of the sliced ranking, row by row. *)
Lemma most_commented_slice (env : Models.Env) (num : Z) (free : bool)
    (w : Models.World) :
  (∀ c, c ∈ (if free then Models.free_comments w else Models.comments w) →
        content_type_id c = Models.entry_ctype env → is_public c = true →
        ∃ e, e ∈ Models.entries w ∧ Models.Entry.id e = Some (object_id c)) →
  ∃ l, Models.EntryManager_most_commented env num free w = Ok l
       ∧ Forall2
           (λ (row : Z * Z) e,
              e ∈ Models.entries w ∧ Models.Entry.id e = Some row.1
              ∧ 0 < row.2
              ∧ row.2 = Spec.public_count
                          (if free then Models.free_comments w
                           else Models.comments w)
                          (Models.entry_ctype env) row.1)
           (slice_to num
              (Models.ranking_query
                 (if free then Models.free_comments w else Models.comments w)
                 (Models.entry_ctype env)))
           l.
Proof.
  intros Hstored. unfold Models.EntryManager_most_commented.
  set (table := if free then Models.free_comments w else Models.comments w)
    in *.
  set (ranking := Models.ranking_query table (Models.entry_ctype env)).
  destruct (ranking_query_spec table (Models.entry_ctype env))
    as (_ & _ & Hrows). fold ranking in Hrows.
  set (top := slice_to num ranking).
  set (ids := top.*1).
  assert (∀ row, row ∈ top →
            (0 < row.2
             ∧ row.2 = Spec.public_count table (Models.entry_ctype env) row.1)
            ∧ ∃ e, e ∈ Models.entries w ∧ Models.Entry.id e = Some row.1)
    as Htop.
  { intros [k n] Hin%elem_of_slice_to. simpl.
    apply Hrows in Hin as [Hpos ->]. split; [done|].
    unfold Spec.public_count in Hpos.
    rewrite <- Nat2Z.inj_0, <- Nat2Z.inj_lt, length_filter_bool_pos in Hpos.
    destruct Hpos as (c & Hc & [[Hct%Z.eqb_eq Hpub]%andb_true_iff
                                  Hk%Z.eqb_eq]%andb_true_iff).
    destruct (Hstored c Hc Hct Hpub) as (e & He & Hid).
    exists e. by rewrite <- Hk. }
  destruct (comprehension_Ok
              (Models.getitem (Models.in_bulk ids (Models.entries w))) ids)
    as (l & Hl & Hall).
  { apply Forall_forall. intros k Hk.
    apply list_elem_of_fmap in Hk as (row & -> & Hrow).
    destruct (Htop row Hrow) as (_ & e & He & Hid).
    destruct (in_bulk_lookup_is_Some ids (Models.entries w) row.1 e)
      as [e' He']; [by apply list_elem_of_fmap_2|done|done|].
    exists e'. unfold Models.getitem. by rewrite He'. }
  exists l. split; [exact Hl|].
  unfold ids in Hall. apply Forall2_fmap_l in Hall.
  eapply Forall2_impl_elem_of; [exact Hall|].
  intros row e Hrow Hget. simpl in Hget.
  unfold Models.getitem in Hget.
  destruct (Models.in_bulk _ _ !! row.1) as [e'|] eqn:He'; [|done].
  injection Hget as ->.
  apply in_bulk_lookup_Some in He' as (? & ? & _).
  destruct (Htop row Hrow) as [[? ?] _]. done.
Qed.

(** How many entries [most_commented(num)] returns, on a store whose ranked
    comments point at stored entries: [num] of them, or as many as have a
    public comment when these are fewer; none for [num = 0]; and for a
    negative [num] all of the ranked entries but the last [-num], as the
    slice [[:num]] has it.  An entry without a public comment is never
    returned. *)
Theorem most_commented_size (env : Models.Env) (num : Z) (free : bool)
    (w : Models.World) :
  (∀ c, c ∈ (if free then Models.free_comments w else Models.comments w) →
        content_type_id c = Models.entry_ctype env → is_public c = true →
        ∃ e, e ∈ Models.entries w ∧ Models.Entry.id e = Some (object_id c)) →
  ∃ l, Models.EntryManager_most_commented env num free w = Ok l
       ∧ length l
         = (if num <? 0
            then (length (Models.ranking_query
                            (if free then Models.free_comments w
                             else Models.comments w)
                            (Models.entry_ctype env))
                  - Z.to_nat (- num))%nat
            else Nat.min (Z.to_nat num)
                   (length (Models.ranking_query
                              (if free then Models.free_comments w
                               else Models.comments w)
                              (Models.entry_ctype env))))
       ∧ Forall (λ e, ∃ k, Models.Entry.id e = Some k
                           ∧ 0 < Spec.public_count
                                   (if free then Models.free_comments w
                                    else Models.comments w)
                                   (Models.entry_ctype env) k) l.
Proof.
  intros Hstored.
  destruct (most_commented_slice env num free w Hstored) as (l & Hl & Hall).
  exists l. split; [done|]. split.
  - rewrite <- (Forall2_length _ _ _ Hall). apply length_slice_to.
  - apply Forall_forall. intros e He.
    apply list_elem_of_lookup_1 in He as [i Hi].
    destruct (Forall2_lookup_r _ _ _ _ _ Hall Hi) as (row & _ & _ & Hid & Hpos & Hn).
    exists row.1. split; [done|]. by rewrite <- Hn.
Qed.

Lemma commented_world_stored :
  ∀ c, c ∈ Models.free_comments Samples.commented_world →
       content_type_id c = Models.entry_ctype Samples.env →
       is_public c = true →
       ∃ e, e ∈ Models.entries Samples.commented_world
            ∧ Models.Entry.id e = Some (object_id c).
Proof.
  refine (proj1 (Forall_forall
            (λ c, content_type_id c = _ → is_public c = true →
                  ∃ e, e ∈ _ ∧ Models.Entry.id e = Some (object_id c)) _) _).
  simpl.
  repeat constructor; intros Hct Hpub; try discriminate;
    first [ exists Samples.entry_A; split; [|reflexivity]
          | exists Samples.entry_B; split; [|reflexivity]
          | exists Samples.entry_C; split; [|reflexivity] ];
    rewrite !elem_of_cons; tauto.
Qed.

(** On the sample store (A:5, B:1, C:3): [most_commented(-1)] returns two
    entries, the three ranked ones but the last. *)
Lemma most_commented_size_witness :
  ∃ l, Models.EntryManager_most_commented Samples.env (-1) true
         Samples.commented_world = Ok l
       ∧ length l = 2%nat.
Proof.
  destruct (most_commented_size Samples.env (-1) true Samples.commented_world
              commented_world_stored) as (l & Hl & Hlen & _).
  exists l. split; [exact Hl|]. rewrite Hlen. reflexivity.
Defined.

Lemma in_bulk_fmap (f : Models.Entry.t → Models.Entry.t) (ids : list Z)
    (tbl : list Models.Entry.t) :
  (∀ e, Models.Entry.id (f e) = Models.Entry.id e) →
  Models.in_bulk ids (f <$> tbl) = f <$> Models.in_bulk ids tbl.
Proof.
  intros Hf. unfold Models.in_bulk.
  rewrite <- list_to_map_fmap, fmap_reverse. do 2 f_equal.
  induction tbl as [|e tbl IH]; [done|]. csimpl. rewrite Hf, IH.
  destruct (Models.Entry.id e) as [k|]; [|done]. by case_bool_decide.
Qed.

Lemma comprehension_getitem_fmap (f : Models.Entry.t → Models.Entry.t)
    (d : gmap Z Models.Entry.t) (ids : list Z) :
  Models.comprehension (Models.getitem (f <$> d)) ids
  = match Models.comprehension (Models.getitem d) ids with
    | Ok l => Ok (f <$> l)
    | Raise e => Raise e
    end.
Proof.
  induction ids as [|k ids IH]; simpl; [done|].
  unfold Models.getitem at 1 3. rewrite lookup_fmap.
  destruct (d !! k) as [e|]; simpl; [|done].
  rewrite IH. by destruct (Models.comprehension (Models.getitem d) ids).
Qed.

(** [most_commented] looks at the keys of the stored entries and at nothing
    else: however the stored entries are edited, their keys kept, the result
    is the former result with the same edit applied, and the call fails in
    the same cases.  So the status plays no part: draft and hidden entries
    are ranked and returned like live ones. *)
Theorem most_commented_ignores_columns (env : Models.Env) (num : Z)
    (free : bool) (w : Models.World)
    (f : Models.Entry.t → Models.Entry.t) :
  (∀ e, Models.Entry.id (f e) = Models.Entry.id e) →
  Models.EntryManager_most_commented env num free
    (Models.set_entries (f <$> Models.entries w) w)
  = match Models.EntryManager_most_commented env num free w with
    | Ok l => Ok (f <$> l)
    | Raise e => Raise e
    end.
Proof.
  intros Hf. unfold Models.EntryManager_most_commented. simpl.
  rewrite (in_bulk_fmap f _ _ Hf). apply comprehension_getitem_fmap.
Qed.

(** On the sample store with every entry hidden: the two most commented
    entries are still A and C, hidden as they are. *)
Lemma most_commented_ignores_columns_witness :
  Models.EntryManager_most_commented Samples.env 2 true
    (Models.set_entries
       (Samples.hide <$> Models.entries Samples.commented_world)
       Samples.commented_world)
  = Ok [Samples.hide Samples.entry_A; Samples.hide Samples.entry_C].
Proof.
  exact (eq_trans
           (most_commented_ignores_columns Samples.env 2 true
              Samples.commented_world Samples.hide (λ _, eq_refl))
           eq_refl).
Defined.

(** ** More on neighbouring entries *)

Lemma beyond_flip (a b : Coltrane.Entry.t) :
  Coltrane.beyond true a b = Coltrane.beyond false b a.
Proof. unfold Coltrane.beyond. by rewrite Z.eqb_sym. Qed.

Lemma beyond_not_by_pub_date (a b : Coltrane.Entry.t) :
  Coltrane.beyond true a b = true → Coltrane.by_pub_date b a = false.
Proof.
  unfold Coltrane.beyond, Coltrane.by_pub_date, Coltrane.pk_lt,
    Coltrane.pk_le.
  destruct (Coltrane.Entry.id a) as [x|], (Coltrane.Entry.id b) as [y|];
    rewrite orb_true_iff, orb_false_iff, andb_true_iff, andb_false_iff,
      !Z.ltb_lt, Z.ltb_ge, Z.eqb_eq, Z.eqb_neq, ?Z.ltb_lt, ?Z.leb_gt;
    intros [?|[? ?]]; try discriminate; split; try lia;
    first [left; lia | right; first [lia | done]].
Qed.

Lemma get_next_or_previous_Raise (is_next : bool) (self : Coltrane.Entry.t)
    (kwargs : Coltrane.Entry.t → bool) (tbl : list Coltrane.Entry.t) :
  (Coltrane.get_next_or_previous_by_pub_date is_next self kwargs tbl
   = Raise DoesNotExist ↔
     ∀ r, r ∈ tbl → kwargs r = true → Coltrane.beyond is_next self r = false)
  ∧ ∀ e, Coltrane.get_next_or_previous_by_pub_date is_next self kwargs tbl
         = Raise e → e = DoesNotExist.
Proof.
  pose proof (get_next_or_previous_spec is_next self kwargs tbl) as H.
  destruct (Coltrane.get_next_or_previous_by_pub_date is_next self kwargs tbl)
    as [r|e].
  - destruct H as (Hin & Hk & Hb & _). split; [|done].
    split; [done|]. intros Hnone. by rewrite (Hnone r Hin Hk) in Hb.
  - destruct H as [-> Hnone]. split; [done|]. by intros e [= <-].
Qed.

(** When [get_next] and [get_previous] fail: exactly when no stored live
    entry lies after (before) the entry, and then with [DoesNotExist]; they
    raise nothing else.  The helper they share raises [AttributeError] for
    a direction other than "next" and "previous". *)
Theorem get_next_DoesNotExist_iff (self : Coltrane.Entry.t)
    (w : Coltrane.World) :
  (Coltrane.Entry_get_next self w = Raise DoesNotExist ↔
     ∀ r, r ∈ Coltrane.entries w →
          Coltrane.Entry.status r = Coltrane.Entry.LIVE_STATUS →
          Coltrane.beyond true self r = false)
  ∧ (Coltrane.Entry_get_previous self w = Raise DoesNotExist ↔
       ∀ r, r ∈ Coltrane.entries w →
            Coltrane.Entry.status r = Coltrane.Entry.LIVE_STATUS →
            Coltrane.beyond false self r = false)
  ∧ (∀ e, Coltrane.Entry_get_next self w = Raise e
          ∨ Coltrane.Entry_get_previous self w = Raise e →
          e = DoesNotExist)
  ∧ (∀ direction : string,
       direction ≠ "next"%string → direction ≠ "previous"%string →
       Coltrane.Entry__next_previous_helper self direction w
       = Raise AttributeError).
Proof.
  unfold Coltrane.Entry_get_next, Coltrane.Entry_get_previous,
    Coltrane.Entry__next_previous_helper. simpl.
  destruct (get_next_or_previous_Raise true self
              (λ e, Coltrane.Entry.status e =? Coltrane.Entry.LIVE_STATUS)
              (Coltrane.entries w)) as [Hn Hn'].
  destruct (get_next_or_previous_Raise false self
              (λ e, Coltrane.Entry.status e =? Coltrane.Entry.LIVE_STATUS)
              (Coltrane.entries w)) as [Hp Hp'].
  split_and!.
  - rewrite Hn. split; intros H r Hin Hlive; apply H; try done;
      by apply Z.eqb_eq.
  - rewrite Hp. split; intros H r Hin Hlive; apply H; try done;
      by apply Z.eqb_eq.
  - intros e [H|H]; [by apply Hn'|by apply Hp'].
  - intros direction Hnext Hprev.
    apply String.eqb_neq in Hnext, Hprev. by rewrite Hnext, Hprev.
Qed.

Lemma by_pub_date_not_beyond (a b : Coltrane.Entry.t) :
  Coltrane.by_pub_date a b = true → Coltrane.beyond true a b = false →
  is_Some (Coltrane.Entry.id a) →
  Coltrane.Entry.id a = Coltrane.Entry.id b.
Proof.
  unfold Coltrane.beyond, Coltrane.by_pub_date, Coltrane.pk_lt,
    Coltrane.pk_le.
  intros Hle Hnot [x Hx]. rewrite Hx in *.
  destruct (Coltrane.Entry.id b) as [y|];
    rewrite orb_true_iff, andb_true_iff, Z.ltb_lt, Z.eqb_eq in Hle;
    rewrite orb_false_iff, andb_false_iff, Z.ltb_ge, Z.eqb_neq in Hnot.
  - rewrite Z.leb_le in Hle. rewrite Z.ltb_ge in Hnot. f_equal. lia.
  - destruct Hle as [?|[_ ?]]; [lia|done].
Qed.

(** [get_previous] undoes [get_next]: when the keys of the stored entries
    are distinct and [a] is a stored live entry, the entry that precedes the
    next entry of [a] is [a] itself. *)
Theorem get_previous_of_get_next (a b : Coltrane.Entry.t)
    (w : Coltrane.World) :
  a ∈ Coltrane.entries w →
  Coltrane.Entry.status a = Coltrane.Entry.LIVE_STATUS →
  is_Some (Coltrane.Entry.id a) →
  (∀ r1 r2, r1 ∈ Coltrane.entries w → r2 ∈ Coltrane.entries w →
            is_Some (Coltrane.Entry.id r1) →
            Coltrane.Entry.id r1 = Coltrane.Entry.id r2 → r1 = r2) →
  Coltrane.Entry_get_next a w = Ok b →
  Coltrane.Entry_get_previous b w = Ok a.
Proof.
  intros Ha Hlive Hkey Huniq.
  unfold Coltrane.Entry_get_next, Coltrane.Entry_get_previous,
    Coltrane.Entry__next_previous_helper. simpl. intros Hnext.
  pose proof (get_next_or_previous_spec true a
                (λ e, Coltrane.Entry.status e =? Coltrane.Entry.LIVE_STATUS)
                (Coltrane.entries w)) as Hn.
  rewrite Hnext in Hn. destruct Hn as (Hb & Hblive & Hab & Hmin).
  pose proof (get_next_or_previous_spec false b
                (λ e, Coltrane.Entry.status e =? Coltrane.Entry.LIVE_STATUS)
                (Coltrane.entries w)) as Hp.
  apply Z.eqb_eq in Hlive.
  destruct (Coltrane.get_next_or_previous_by_pub_date false b _ _)
    as [r|e].
  - destruct Hp as (Hr & Hrlive & Hbr & Hmax). f_equal. symmetry.
    assert (Coltrane.by_pub_date a r = true) as Har.
    { apply Hmax; [done..|]. by rewrite <- beyond_flip. }
    destruct (Coltrane.beyond true a r) eqn:Hbeyond.
    + pose proof (Hmin r Hr Hrlive Hbeyond) as Hle.
      rewrite <- beyond_flip in Hbr.
      apply beyond_not_by_pub_date in Hbr. congruence.
    + apply Huniq; [done..|]. by apply by_pub_date_not_beyond.
  - destruct Hp as [_ Hnone].
    specialize (Hnone a Ha Hlive). by rewrite <- beyond_flip, Hab in Hnone.
Qed.

(** On the three sample entries: the next entry of t1 is t3, and the entry
    before t3 is t1 again. *)
Lemma get_previous_of_get_next_witness :
  Coltrane.Entry_get_previous Samples.t3 Samples.three_entries
  = Ok Samples.t1.
Proof.
  apply (get_previous_of_get_next Samples.t1 Samples.t3
           Samples.three_entries).
  - simpl. right. left.
  - reflexivity.
  - by eexists.
  - intros r1 r2 H1 H2 _. revert H1 H2. simpl.
    rewrite !elem_of_cons, !elem_of_nil.
    intros [->|[->|[->|[]]]] [->|[->|[->|[]]]]; done.
  - reflexivity.
Defined.

(** ** Categories *)

(** [Category.save]: the stored [description_html] is the rendering of
    [description] after every successful save, an empty description
    included (the save has no guard); a new category whose slug is that of
    a stored one is rejected with an integrity error and nothing is
    written. *)
Theorem Category_save_renders_and_checks_slug (env : Coltrane.Env) :
  (∀ self w self' w',
     Coltrane.Category_save env self w = (Ok self', w') →
     Coltrane.Category.description self' = Coltrane.Category.description self
     ∧ Coltrane.Category.description_html self'
       = Coltrane.formatter env (Coltrane.Category.description self)
     ∧ ∃ k, Coltrane.Category.id self' = Some k
            ∧ Orm.get Coltrane.Category.id k (Coltrane.categories w')
              = Some self')
  ∧ (∀ self r w,
       truthy_id (Coltrane.Category.id self) = false →
       r ∈ Coltrane.categories w →
       Coltrane.Category.slug r = Coltrane.Category.slug self →
       Coltrane.Category_save env self w = (Raise IntegrityError, w)).
Proof.
  split.
  - intros self w self' w'.
    unfold Coltrane.Category_save, Coltrane.Category_super_save.
    destruct (Orm.save _ _ _ _ _) as [[s tbl]|e] eqn:Hsave; [|done].
    intros [= <- <-].
    pose proof (save_Ok Coltrane.Category.id Coltrane.Category.set_id
                  Coltrane.Category.conflicts (λ _ _, eq_refl) _ _ _ _ Hsave)
      as (Hs & _ & Hget).
    split_and!; [by destruct Hs as [-> | ->]..|done].
  - intros self r w Hid Hr Hslug.
    unfold Coltrane.Category_save, Coltrane.Category_super_save.
    rewrite (save_conflict Coltrane.Category.id Coltrane.Category.set_id
               Coltrane.Category.conflicts _ _ r); [done..|].
    unfold Coltrane.Category.conflicts. simpl.
    by rewrite <- Hslug, String.eqb_refl.
Qed.

(** The sample category, whose description is empty and whose rendered
    column holds an old text: the save stores the rendering of the empty
    description. *)
Lemma Category_save_renders_and_checks_slug_witness :
  ∃ self' w',
    Coltrane.Category_save Samples.cenv Samples.category
      Samples.cempty_world = (Ok self', w')
    ∧ Coltrane.Category.description_html self' = "<p></p>"%string.
Proof.
  destruct (Coltrane.Category_save Samples.cenv Samples.category
              Samples.cempty_world) as [[self'|e] w'] eqn:Hsave;
    [|vm_compute in Hsave; discriminate].
  exists self', w'. split; [done|].
  destruct (Category_save_renders_and_checks_slug Samples.cenv) as [H _].
  destruct (H _ _ _ _ Hsave) as (_ & -> & _). reflexivity.
Defined.

(** [live_entry_set] of a saved category: exactly the stored entries that
    are in the category and have the Live status, each as often as it is
    stored, latest [pub_date] first.  For a category that was never saved
    the property raises [ValueError]: no list is returned. *)
Theorem live_entry_set_by_category (self : Coltrane.Category.t)
    (w : Coltrane.World) :
  (∀ k, Coltrane.Category.id self = Some k →
        ∃ l, Coltrane.Category__get_live_entries self w = Ok l
             ∧ (∀ e, e ∈ l ↔
                     e ∈ Coltrane.entries w
                     ∧ Coltrane.Entry.status e = Coltrane.Entry.LIVE_STATUS
                     ∧ k ∈ Coltrane.Entry.categories e)
             ∧ l ≡ₚ List.filter
                      (λ e, (Coltrane.Entry.status e
                             =? Coltrane.Entry.LIVE_STATUS)
                            && bool_decide (k ∈ Coltrane.Entry.categories e))
                      (Coltrane.entries w)
             ∧ StronglySorted
                 (λ a b, Coltrane.Entry.pub_date b
                         ≤ Coltrane.Entry.pub_date a) l)
  ∧ (Coltrane.Category.id self = None →
     Coltrane.Category__get_live_entries self w = Raise ValueError).
Proof.
  unfold Coltrane.Category__get_live_entries. split.
  - intros k ->. eexists. split; [reflexivity|]. split_and!.
    + intros e. rewrite elem_of_order_by, !elem_of_filter_bool, Z.eqb_eq.
      rewrite bool_decide_eq_true. split.
      * by intros [[? ?] ?].
      * by intros (? & ? & ?).
    + rewrite order_by_Permutation, filter_bool_filter.
      erewrite List.filter_ext; [reflexivity|].
      intros e. apply andb_comm.
    + eapply StronglySorted_weaken;
        [|apply (order_by_StronglySorted Coltrane.Entry.ordering)].
      * intros a b. apply Z.leb_le.
      * intros a b. unfold Coltrane.Entry.ordering. rewrite !Z.leb_le. lia.
      * intros a b c. unfold Coltrane.Entry.ordering. rewrite !Z.leb_le.
        lia.
  - by intros ->.
Qed.

(** ** Counting comments *)

(** [_get_comment_count] counts every comment on the entry, hidden ones
    included: it is the number of public comments (the count that ranks
    the most commented entries) plus the number of comments that are not
    public, so it is never below the public count; for an entry that was
    never saved it is zero. *)
Theorem comment_count_includes_hidden (ctype : Z)
    (comment_table : list CommentRow) (self : Coltrane.Entry.t) :
  (∀ k, Coltrane.Entry.id self = Some k →
        Coltrane.Entry__get_comment_count ctype comment_table self
        = Spec.public_count comment_table ctype k
          + Z.of_nat (length (List.filter
              (λ c, (content_type_id c =? ctype) && negb (is_public c)
                    && (object_id c =? k))
              comment_table))
        ∧ Spec.public_count comment_table ctype k
          ≤ Coltrane.Entry__get_comment_count ctype comment_table self)
  ∧ (Coltrane.Entry.id self = None →
     Coltrane.Entry__get_comment_count ctype comment_table self = 0).
Proof.
  unfold Coltrane.Entry__get_comment_count, Spec.public_count. split.
  - intros k ->.
    assert (∀ l : list CommentRow,
              length (List.filter
                (λ c, (content_type_id c =? ctype) && (object_id c =? k)) l)
              = Nat.add
                  (length (List.filter
                     (λ c, (content_type_id c =? ctype) && is_public c
                           && (object_id c =? k)) l))
                  (length (List.filter
                     (λ c, (content_type_id c =? ctype) && negb (is_public c)
                           && (object_id c =? k)) l))) as Hsplit.
    { induction l as [|c l IH]; simpl; [done|].
      destruct (content_type_id c =? ctype), (is_public c),
        (object_id c =? k); simpl; lia. }
    rewrite Hsplit. lia.
  - intros ->.
    assert (∀ l : list CommentRow,
              List.filter (λ c, (content_type_id c =? ctype) && false) l = [])
      as -> by (induction l; simpl; rewrite ?andb_false_r; auto).
    done.
Qed.

(** ** The comment model in use *)

Lemma split_nonempty (sep : Ascii.ascii) (s : string) : Setup.split sep s ≠ [].
Proof.
  destruct s as [|c rest]; simpl; [done|].
  destruct (Ascii.eqb c sep); [done|]. by destruct (Setup.split sep rest).
Qed.

Lemma length_split (sep : Ascii.ascii) (s : string) :
  length (Setup.split sep s) = S (Setup.occurrences sep s).
Proof.
  induction s as [|c rest IH]; simpl; [done|].
  destruct (Ascii.eqb c sep); simpl; [by rewrite IH|].
  pose proof (split_nonempty sep rest).
  destruct (Setup.split sep rest); [done|]. simpl in *. lia.
Qed.

Lemma split_one (sep : Ascii.ascii) (s b : string) :
  Setup.split sep s = [b] → s = b.
Proof.
  revert b. induction s as [|c rest IH]; intros b; simpl.
  - by intros [= <-].
  - pose proof (split_nonempty sep rest).
    destruct (Ascii.eqb c sep).
    + intros [= <- Hrest]. done.
    + destruct (Setup.split sep rest) as [|h t]; [done|].
      intros [= <- ->]. by rewrite (IH h).
Qed.

Lemma split_two (sep : Ascii.ascii) (s a b : string) :
  Setup.split sep s = [a; b] → s = (a ++ String sep b)%string.
Proof.
  revert a. induction s as [|c rest IH]; intros a; simpl; [done|].
  destruct (Ascii.eqb c sep) eqn:Hc.
  - intros [= <- Hrest]. apply Ascii.eqb_eq in Hc as ->.
    by rewrite (split_one _ _ _ Hrest).
  - destruct (Setup.split sep rest) as [|h t]; [done|].
    intros [= <- ->]. by rewrite (IH h).
Qed.

(** Which comment model the module settles on when it is imported.  With
    [COLTRANE_COMMENT_MODULE] unset it is [FreeComment] or [Comment], after
    [USE_FREE_COMMENTS].  A value that does not hold exactly one dot makes
    the import fail with [ValueError]: the unpacking error is not among the
    exceptions the [try] catches.  A value [app.model] gives whatever
    [get_model] returns for the two parts, [None] included; the fallback is
    taken only when [get_model] raises one of the three caught
    exceptions. *)
Theorem comment_model_selection {Model : Type} (FreeComment Comment : Model)
    (get_model : string → string → Setup.outcome (option Model))
    (USE_FREE_COMMENTS : bool) :
  Setup.comment_model FreeComment Comment get_model None USE_FREE_COMMENTS
  = Setup.Loaded (Some (if USE_FREE_COMMENTS then FreeComment else Comment))
  ∧ (∀ s, Setup.occurrences Setup.dot s ≠ 1%nat →
          Setup.comment_model FreeComment Comment get_model (Some s)
            USE_FREE_COMMENTS = Setup.Failed Setup.ValueError)
  ∧ (∀ s, Setup.occurrences Setup.dot s = 1%nat →
          ∃ app_label model_name,
            s = (app_label ++ String Setup.dot model_name)%string
            ∧ Setup.comment_model FreeComment Comment get_model (Some s)
                USE_FREE_COMMENTS
              = match get_model app_label model_name with
                | Setup.Loaded m => Setup.Loaded m
                | Setup.Failed e =>
                    if Setup.caught e
                    then Setup.Loaded
                           (Some (if USE_FREE_COMMENTS then FreeComment
                                  else Comment))
                    else Setup.Failed e
                end).
Proof.
  split; [done|]. split.
  - intros s Hs. unfold Setup.comment_model.
    pose proof (length_split Setup.dot s) as Hlen.
    destruct (Setup.split Setup.dot s) as [|a [|b [|c l]]]; try done.
    simpl in Hlen. lia.
  - intros s Hs. unfold Setup.comment_model.
    pose proof (length_split Setup.dot s) as Hlen.
    destruct (Setup.split Setup.dot s) as [|a [|b [|c l]]] eqn:Hsplit;
      simpl in Hlen; try lia.
    exists a, b. split; [by apply split_two|done].
Qed.

Example split_examples :
  Setup.split Setup.dot "threadedcomments.freethreadedcomment"
  = ["threadedcomments"; "freethreadedcomment"]%string
  ∧ Setup.split Setup.dot "" = [""%string]
  ∧ Setup.split Setup.dot "a.b.c" = ["a"; "b"; "c"]%string
  ∧ Setup.split Setup.dot "comments." = ["comments"; ""]%string.
Proof. split_and!; reflexivity. Qed.

(** ** Saving again, and what a save leaves alone *)

Section SaveAgain.
Context {Row : Type}.
Variable pk : Row → option Z.
Variable set_pk : Z → Row → Row.
Variable conflicts : Row → Row → bool.
Hypothesis pk_set_pk : ∀ k r, pk (set_pk k r) = Some k.

(** A keyed row that is already in the table, every other row having
    another key and not colliding with it, is saved onto itself. *)
Lemma save_fixed (s : Row) (l : list Row) (k : Z) :
  pk s = Some k → k ≠ 0 → s ∈ l →
  Forall (λ r, r = s
               ∨ (Orm.has_pk pk k r = false ∧ conflicts s r = false)) l →
  Orm.save pk set_pk conflicts s l = Ok (s, l).
Proof.
  intros Hk Hk0 Hin Hall.
  assert (Orm.has_pk pk k s = true) as Hs
    by (unfold Orm.has_pk; by rewrite Hk, Z.eqb_refl).
  unfold Orm.save, Orm.same_pk.
  destruct (pk s) as [k'|] eqn:Hk'; [|done]. injection Hk as ->. simpl.
  change (λ r, Orm.has_pk pk k r) with (Orm.has_pk pk k).
  assert ((k =? 0) = false) as -> by (by apply Z.eqb_neq). simpl.
  assert (existsb (Orm.has_pk pk k) l = true) as ->.
  { apply existsb_exists. exists s. by rewrite <- list_elem_of_In. }
  assert (existsb (λ r, negb (Orm.has_pk pk k r) && conflicts s r) l = false)
    as ->.
  { apply existsb_false_Forall. eapply Forall_impl; [exact Hall|].
    intros r [->|[-> ->]]; [by rewrite Hs|done]. }
  do 2 f_equal. clear Hin.
  induction Hall as [|r l Hr _ IH]; [done|]. csimpl. rewrite IH. f_equal.
  destruct Hr as [->|[-> _]]; [by rewrite Hs|done].
Qed.

(** Saving the object a successful save returned, into the table that save
    left, changes nothing. *)
Lemma save_again (self self' : Row) (l l' : list Row) :
  Orm.save pk set_pk conflicts self l = Ok (self', l') →
  Orm.save pk set_pk conflicts self' l' = Ok (self', l').
Proof.
  unfold Orm.save, Orm.same_pk.
  destruct (pk self) as [k|] eqn:Hk; simpl.
  - destruct (k =? 0) eqn:Hk0; simpl.
    + destruct (existsb _ l) eqn:Hc; [done|]. intros [= <- <-].
      pose proof (next_id_positive pk l).
      apply (save_fixed _ _ (Orm.next_id pk l)); [done|lia| |].
      * apply elem_of_app. right. by left.
      * apply Forall_app. split; [|by repeat constructor; left].
        apply existsb_false_Forall in Hc.
        pose proof (proj1 (existsb_false_Forall _ _) (has_pk_next_id pk l))
          as Hfresh.
        eapply Forall_impl; [exact (proj2 (Forall_and _ _) (conj Hfresh Hc))|].
        intros r [? ?]. by right.
    + apply Z.eqb_neq in Hk0.
      change (λ r, Orm.has_pk pk k r) with (Orm.has_pk pk k).
      destruct (existsb (Orm.has_pk pk k) l) eqn:Hex.
      * destruct (existsb (λ r, negb _ && _) l) eqn:Hc; [done|].
        intros [= <- <-].
        assert (Orm.has_pk pk k self = true) as Hs
          by (unfold Orm.has_pk; by rewrite Hk, Z.eqb_refl).
        apply (save_fixed _ _ k); [done..| |].
        -- apply existsb_exists in Hex as (r & Hr & Hrk).
           apply list_elem_of_fmap. exists r.
           rewrite Hrk. split; [done|]. by apply list_elem_of_In.
        -- apply Forall_fmap. apply existsb_false_Forall in Hc.
           eapply Forall_impl; [exact Hc|]. intros r Hr. simpl.
           destruct (Orm.has_pk pk k r) eqn:Hrk; [by left|]. right.
           simpl in Hr. rewrite Hrk in Hr. done.
      * destruct (existsb (conflicts self) l) eqn:Hc; [done|].
        intros [= <- <-].
        apply (save_fixed _ _ k); [done..| |].
        -- apply elem_of_app. right. by left.
        -- apply Forall_app. split; [|by repeat constructor; left].
           apply existsb_false_Forall in Hc, Hex.
           eapply Forall_impl; [exact (proj2 (Forall_and _ _) (conj Hex Hc))|].
           intros r [? ?]. by right.
  - destruct (existsb _ l) eqn:Hc; [done|]. intros [= <- <-].
    pose proof (next_id_positive pk l).
    apply (save_fixed _ _ (Orm.next_id pk l)); [done|lia| |].
    + apply elem_of_app. right. by left.
    + apply Forall_app. split; [|by repeat constructor; left].
      apply existsb_false_Forall in Hc.
      pose proof (proj1 (existsb_false_Forall _ _) (has_pk_next_id pk l))
        as Hfresh.
      eapply Forall_impl; [exact (proj2 (Forall_and _ _) (conj Hfresh Hc))|].
      intros r [? ?]. by right.
Qed.
End SaveAgain.

(** Saving an object again right after a successful save changes nothing:
    the save returns the same object and leaves the store as it was, with no
    second row and, for a link, no second call of the bookmarking service.
    Entries, links and categories of [src/coltrane/models.py]. *)
Theorem save_twice_is_save_once (env : Coltrane.Env) :
  (∀ self w self' w',
     Coltrane.Entry_save env self w = (Ok self', w') →
     Coltrane.Entry_save env self' w' = (Ok self', w'))
  ∧ (∀ self w self' w',
       Coltrane.Link_save env self w = (Ok self', w') →
       Coltrane.Link_save env self' w' = (Ok self', w'))
  ∧ (∀ self w self' w',
       Coltrane.Category_save env self w = (Ok self', w') →
       Coltrane.Category_save env self' w' = (Ok self', w')).
Proof.
  split_and!.
  - intros self w self' w'.
    unfold Coltrane.Entry_save, Coltrane.Entry_super_save.
    destruct (Orm.save _ _ _ _ (Coltrane.entries w)) as [[s tbl]|e] eqn:Hsave;
      [|done].
    intros [= <- <-].
    pose proof (save_again Coltrane.Entry.id Coltrane.Entry.set_id
                  Coltrane.Entry.conflicts (λ _ _, eq_refl) _ _ _ _ Hsave)
      as Hagain.
    apply (save_Ok Coltrane.Entry.id Coltrane.Entry.set_id
             Coltrane.Entry.conflicts (λ _ _, eq_refl)) in Hsave
      as (Hs & _ & _).
    cbv zeta.
    set (rendered := if truthy_text (Coltrane.Entry.excerpt s)
                     then Coltrane.Entry.set_excerpt_html
                            (Coltrane.formatter env
                             <$> Coltrane.Entry.excerpt s) s
                     else s).
    assert (Coltrane.Entry.set_body_html
              (Coltrane.formatter env (Coltrane.Entry.body rendered))
              rendered = s) as Hfix.
    { unfold rendered.
      destruct (truthy_text (Coltrane.Entry.excerpt self)) eqn:Hex;
        destruct Hs as [-> | ->]; simpl; by rewrite Hex. }
    rewrite Hfix. simpl. by rewrite Hagain.
  - intros self w self' w' Hsave.
    pose proof (Coltrane_Link_save_Ok _ _ _ _ _ Hsave)
      as (_ & _ & _ & _ & Htr & _).
    revert Hsave. rewrite !Coltrane_Link_save_unfold. cbv zeta.
    destruct (Orm.save _ _ _ _ (Coltrane.links w)) as [[s tbl]|e] eqn:Hsave;
      [|done].
    intros [= <- <-]. rewrite Htr.
    pose proof (save_again Coltrane.Link.id Coltrane.Link.set_id
                  Coltrane.Link.conflicts (λ _ _, eq_refl) _ _ _ _ Hsave)
      as Hagain.
    apply (save_Ok Coltrane.Link.id Coltrane.Link.set_id
             Coltrane.Link.conflicts (λ _ _, eq_refl)) in Hsave
      as (Hs & _ & _).
    assert ((if truthy_text (Coltrane.Link.description s)
             then Coltrane.Link.set_description_html
                    (Coltrane.formatter env <$> Coltrane.Link.description s) s
             else s) = s) as Hfix.
    { destruct (truthy_text (Coltrane.Link.description self)) eqn:Hd;
        destruct Hs as [-> | ->]; simpl; rewrite Hd; try done;
        by destruct self. }
    rewrite Hfix.
    assert (Coltrane.links
              (Coltrane.set_links tbl
                 (if negb (truthy_id (Coltrane.Link.id self))
                     && Coltrane.Link.post_elsewhere self
                  then Coltrane.set_delicious
                         (Coltrane.delicious w
                          ++ [Coltrane.Link_post env self]) w
                  else w)) = tbl) as -> by (by destruct (_ && _)).
    rewrite Hagain. simpl. by destruct (_ && _).
  - intros self w self' w'.
    unfold Coltrane.Category_save, Coltrane.Category_super_save.
    destruct (Orm.save _ _ _ _ (Coltrane.categories w)) as [[s tbl]|e]
      eqn:Hsave; [|done].
    intros [= <- <-].
    pose proof (save_again Coltrane.Category.id Coltrane.Category.set_id
                  Coltrane.Category.conflicts (λ _ _, eq_refl) _ _ _ _ Hsave)
      as Hagain.
    apply (save_Ok Coltrane.Category.id Coltrane.Category.set_id
             Coltrane.Category.conflicts (λ _ _, eq_refl)) in Hsave
      as (Hs & _ & _).
    assert (Coltrane.Category.set_description_html
              (Coltrane.formatter env (Coltrane.Category.description s)) s
            = s) as Hfix by (by destruct Hs as [-> | ->]).
    simpl. rewrite Hfix, Hagain. done.
Qed.

(** The sample link, saved twice: the second save returns the stored link
    and the store, with its single call of the service, is unchanged. *)
Lemma save_twice_is_save_once_witness :
  Coltrane.Link_save Samples.cenv Samples.clink_saved.1 Samples.clink_saved.2
  = (Ok Samples.clink_saved.1, Samples.clink_saved.2)
  ∧ length (Coltrane.delicious Samples.clink_saved.2) = 1%nat.
Proof.
  destruct (save_twice_is_save_once Samples.cenv) as (_ & H & _).
  split; [|reflexivity].
  exact (H Samples.clink Samples.cempty_world _ _ eq_refl).
Defined.

(** ** Distinct keys and distinct unique columns *)

Section Distinct.
Context {Row C : Type}.
Variable pk : Row → option Z.
Variable set_pk : Z → Row → Row.
Variable conflicts : Row → Row → bool.
(** a column, or a tuple of columns, that the model declares unique *)
Variable col : Row → C.
Hypothesis pk_set_pk : ∀ k r, pk (set_pk k r) = Some k.
Hypothesis col_conflicts : ∀ a b, col a = col b → conflicts a b = true.




End Distinct.



(** ** What a save leaves alone *)

Section Frame.
Context {Row : Type}.
Variable pk : Row → option Z.
Variable set_pk : Z → Row → Row.
Variable conflicts : Row → Row → bool.
Hypothesis pk_set_pk : ∀ k r, pk (set_pk k r) = Some k.

Lemma get_app_other (k' : Z) (l : list Row) (s : Row) :
  Orm.has_pk pk k' s = false →
  Orm.get pk k' (l ++ [s]) = Orm.get pk k' l.
Proof.
  intros Hs. unfold Orm.get. induction l as [|r l IH]; simpl.
  - by rewrite Hs.
  - by destruct (Orm.has_pk pk k' r).
Qed.

Lemma get_replace_other (k k' : Z) (l : list Row) (s : Row) :
  k' ≠ k → pk s = Some k →
  Orm.get pk k' ((λ r, if Orm.has_pk pk k r then s else r) <$> l)
  = Orm.get pk k' l.
Proof.
  intros Hne Hs. unfold Orm.get.
  assert (Orm.has_pk pk k' s = false) as Hs'.
  { unfold Orm.has_pk. rewrite Hs. by apply Z.eqb_neq. }
  induction l as [|r l IH]; csimpl; [done|].
  destruct (Orm.has_pk pk k r) eqn:Hr.
  - rewrite Hs'.
    assert (Orm.has_pk pk k' r = false) as ->; [|done].
    unfold Orm.has_pk in *. destruct (pk r) as [a|]; [|done].
    apply Z.eqb_eq in Hr as ->. by apply Z.eqb_neq.
  - by destruct (Orm.has_pk pk k' r).
Qed.

(** A successful save leaves the row under every other key as it was, and
    the table gains one row or none. *)
Lemma save_frame (self self' : Row) (l l' : list Row) (k : Z) :
  Orm.save pk set_pk conflicts self l = Ok (self', l') →
  pk self' = Some k →
  (∀ k', k' ≠ k → Orm.get pk k' l' = Orm.get pk k' l)
  ∧ (length l' = length l ∨ length l' = S (length l)).
Proof.
  unfold Orm.save, Orm.same_pk.
  assert (∀ s, pk s = Some k →
            (∀ k', k' ≠ k → Orm.get pk k' (l ++ [s]) = Orm.get pk k' l)
            ∧ (length (l ++ [s]) = length l
               ∨ length (l ++ [s]) = S (length l))) as Hins.
  { intros s Hs. split.
    - intros k' Hne. apply get_app_other. unfold Orm.has_pk. rewrite Hs.
      by apply Z.eqb_neq.
    - right. rewrite length_app. simpl. lia. }
  destruct (pk self) as [k0|] eqn:Hk; simpl.
  - change (λ r, Orm.has_pk pk k0 r) with (Orm.has_pk pk k0).
    destruct (k0 =? 0) eqn:Hk0; simpl.
    + destruct (existsb _ l); [done|]. intros [= <- <-] Hs. by apply Hins.
    + destruct (existsb (Orm.has_pk pk k0) l).
      * destruct (existsb (λ r, negb _ && _) l); [done|].
        intros [= <- <-] Hs. assert (k0 = k) as -> by congruence. split.
        -- intros k' Hne. by apply get_replace_other.
        -- left. by rewrite length_fmap.
      * destruct (existsb (conflicts self) l); [done|].
        intros [= <- <-] Hs. by apply Hins.
  - destruct (existsb _ l); [done|]. intros [= <- <-] Hs. by apply Hins.
Qed.
End Frame.

(** A successful save of an entry or of a link touches one row only: the
    row stored under any other key is the same before and after, the table
    grows by one row (a new object) or not at all (an update), and the
    tables of the other models are not changed.  [src/coltrane/models.py]. *)
Theorem save_touches_one_row (env : Coltrane.Env) :
  (∀ self w self' w' k,
     Coltrane.Entry_save env self w = (Ok self', w') →
     Coltrane.Entry.id self' = Some k →
     (∀ k', k' ≠ k →
            Orm.get Coltrane.Entry.id k' (Coltrane.entries w')
            = Orm.get Coltrane.Entry.id k' (Coltrane.entries w))
     ∧ (length (Coltrane.entries w') = length (Coltrane.entries w)
        ∨ length (Coltrane.entries w') = S (length (Coltrane.entries w)))
     ∧ Coltrane.links w' = Coltrane.links w
     ∧ Coltrane.categories w' = Coltrane.categories w
     ∧ Coltrane.delicious w' = Coltrane.delicious w)
  ∧ (∀ self w self' w' k,
       Coltrane.Link_save env self w = (Ok self', w') →
       Coltrane.Link.id self' = Some k →
       (∀ k', k' ≠ k →
              Orm.get Coltrane.Link.id k' (Coltrane.links w')
              = Orm.get Coltrane.Link.id k' (Coltrane.links w))
       ∧ (length (Coltrane.links w') = length (Coltrane.links w)
          ∨ length (Coltrane.links w') = S (length (Coltrane.links w)))
       ∧ Coltrane.entries w' = Coltrane.entries w
       ∧ Coltrane.categories w' = Coltrane.categories w).
Proof.
  split.
  - intros self w self' w' k.
    unfold Coltrane.Entry_save, Coltrane.Entry_super_save.
    destruct (Orm.save _ _ _ _ _) as [[s tbl]|e] eqn:Hsave; [|done].
    intros [= <- <-] Hk. simpl.
    destruct (save_frame Coltrane.Entry.id Coltrane.Entry.set_id
                Coltrane.Entry.conflicts _ _ _ _ k Hsave Hk) as [? ?].
    done.
  - intros self w self' w' k.
    rewrite Coltrane_Link_save_unfold. cbv zeta.
    destruct (Orm.save _ _ _ _ _) as [[s tbl]|e] eqn:Hsave; [|done].
    intros [= <- <-] Hk.
    destruct (save_frame Coltrane.Link.id Coltrane.Link.set_id
                Coltrane.Link.conflicts _ _ _ _ k Hsave Hk) as [? ?].
    destruct (_ && _); done.
Qed.

(** The sample link saved into the store that holds it already under key 1
    (a second link at another address): key 1 still holds the first link. *)
Lemma save_touches_one_row_witness :
  Orm.get Coltrane.Link.id 1
    (Coltrane.links
       (Coltrane.Link_save Samples.cenv Samples.clink_same_slug
          Samples.clink_saved.2).2)
  = Some Samples.clink_saved.1.
Proof.
  destruct (save_touches_one_row Samples.cenv) as [_ H].
  destruct (H Samples.clink_same_slug Samples.clink_saved.2
              (match (Coltrane.Link_save Samples.cenv Samples.clink_same_slug
                        Samples.clink_saved.2).1 with
               | Ok l => l
               | Raise _ => Samples.clink
               end)
              (Coltrane.Link_save Samples.cenv Samples.clink_same_slug
                 Samples.clink_saved.2).2
              2 eq_refl eq_refl) as (Hget & _).
  rewrite (Hget 1); [reflexivity|lia].
Defined.

(** ** Tags follow the save *)

(** [Entry.save] and [Link.save] of [src/models.py] set the tags after the
    row is written, under the key the row has then: after a successful save
    the tags of the object are the labels of its [tag_list], the tags of
    every other entity are untouched, and a save that the database rejects
    leaves the tag store as it was. *)
Theorem tags_follow_the_save (env : Models.Env) :
  (∀ self w self' w',
     Models.Entry_save env self w = (Ok self', w') →
     is_Some (Models.Entry.id self')
     ∧ Models.Entry__get_tags env self' w'
       = list_to_set (Models.parse_tag_input env (Models.Entry.tag_list self))
     ∧ ∀ ctype oid,
         (ctype, oid) ≠ (Models.entry_ctype env, Models.Entry.id self') →
         Tagging.get_for_object ctype oid (Models.tagged_items w')
         = Tagging.get_for_object ctype oid (Models.tagged_items w))
  ∧ (∀ self w self' w',
       Models.Link_save env self w = (Ok self', w') →
       is_Some (Models.Link.id self')
       ∧ Models.Link__get_tags env self' w'
         = list_to_set (Models.parse_tag_input env (Models.Link.tag_list self))
       ∧ ∀ ctype oid,
           (ctype, oid) ≠ (Models.link_ctype env, Models.Link.id self') →
           Tagging.get_for_object ctype oid (Models.tagged_items w')
           = Tagging.get_for_object ctype oid (Models.tagged_items w))
  ∧ (∀ self w e w',
       Models.Entry_save env self w = (Raise e, w') →
       Models.tagged_items w' = Models.tagged_items w)
  ∧ (∀ self w e w',
       Models.Link_save env self w = (Raise e, w') →
       Models.tagged_items w' = Models.tagged_items w).
Proof.
  split_and!.
  - intros self w self' w'.
    unfold Models.Entry_save, Models.Entry_super_save, Models.Entry__set_tags,
      Models.Entry__get_tags, mbind, M_bind, bind, mret, M_ret, ret, modify.
    destruct (Orm.save _ _ _ _ _) as [[s tbl]|e] eqn:Hsave; [|done].
    intros [= <- <-]. simpl.
    pose proof (save_Ok Models.Entry.id Models.Entry.set_id
                  Models.Entry.conflicts (λ _ _, eq_refl) _ _ _ _ Hsave)
      as (Hs & _ & k & Hk & _).
    split_and!.
    + by rewrite Hk.
    + rewrite get_for_object_update_tags.
      destruct Hs as [-> | ->]; simpl; by destruct (truthy_text _).
    + intros ctype oid Hne. by apply get_for_object_update_tags_other.
  - intros self w self' w'. rewrite Models_Link_save_unfold. cbv zeta.
    unfold Models.Link__get_tags.
    destruct (Orm.save _ _ _ _ _) as [[s tbl]|e] eqn:Hsave; [|done].
    intros [= <- <-]. simpl.
    pose proof (save_Ok Models.Link.id Models.Link.set_id
                  Models.Link.conflicts (λ _ _, eq_refl) _ _ _ _ Hsave)
      as (Hs & _ & k & Hk & _).
    split_and!.
    + by rewrite Hk.
    + rewrite get_for_object_update_tags.
      by destruct Hs as [-> | ->].
    + intros ctype oid Hne.
      rewrite get_for_object_update_tags_other; [|done].
      by destruct (_ && _).
  - intros self w e w'.
    unfold Models.Entry_save, Models.Entry_super_save, Models.Entry__set_tags,
      mbind, M_bind, bind, mret, M_ret, ret, modify.
    destruct (Orm.save _ _ _ _ _) as [[s tbl]|e']; [done|].
    by intros [= <- <-].
  - intros self w e w'. rewrite Models_Link_save_unfold. cbv zeta.
    destruct (Orm.save _ _ _ _ _) as [[s tbl]|e']; [done|].
    intros [= <- <-]. by destruct (_ && _).
Qed.

(** The sample link of [src/models.py], saved with the tag list "proof":
    its tags are then the single label "proof". *)
Lemma tags_follow_the_save_witness :
  Models.Link__get_tags Samples.env Samples.link_saved.1 Samples.link_saved.2
  = {["proof"%string]}.
Proof.
  destruct (tags_follow_the_save Samples.env) as (_ & H & _).
  destruct (H Samples.link Samples.empty_world Samples.link_saved.1
              Samples.link_saved.2 eq_refl) as (_ & -> & _).
  simpl. by rewrite union_empty_r_L.
Defined.
